(** * AACT MCP server: the tool and resource layer of [src/server.py]

    A shallow embedding of the request validation, the SELECT-only guard,
    the shaping of query results, the insight memo and the loading of the
    schema document, followed by the properties the specification states
    about them.

    Python values are modelled as follows.
    - [str] is a sequence of Unicode code points ([N]).
    - [int] is [Z].
    - an exception is a value of [exn]; a call that may raise returns an
      [outcome].
    - the awaited calls on the request context ([ctx.info], [ctx.debug],
      [ctx.error], [ctx.report_progress],
      [ctx.session.send_resource_list_changed]) and the calls on the data
      store are recorded, in order, in the [trace] of the [World]; the
      process-wide memo is the other component of the [World]. *)

From Stdlib Require Import List ZArith NArith Bool Lia.
From Stdlib Require Import Strings.String Strings.Ascii.
From Stdlib Require Import DecimalString.

#[local] Set Warnings "-register-all".
Import ListNotations.

Local Open Scope N_scope.

(** ** Python strings *)

Module PyStr.

Definition codepoint : Type := N.

Definition str : Type := list codepoint.

(** A literal of the source, all of whose characters are ASCII. *)
Definition of_string (s : string) : str :=
map N_of_ascii (list_ascii_of_string s).

(** [not s] for a string: true exactly on the empty string. *)
Definition is_empty (s : str) : bool :=
match s with
| [] => true
| _ :: _ => false
end.

(** [str.isspace] of one character: the code points Python treats as
    whitespace (bidirectional class WS, B or S, or category Zs), which are
    the ones [str.strip()] removes. *)
Definition isspace (c : codepoint) : bool :=
((0x09 <=? c) && (c <=? 0x0D))
|| ((0x1C <=? c) && (c <=? 0x20))
|| (c =? 0x85) || (c =? 0xA0) || (c =? 0x1680)
|| ((0x2000 <=? c) && (c <=? 0x200A))
|| (c =? 0x2028) || (c =? 0x2029) || (c =? 0x202F)
|| (c =? 0x205F) || (c =? 0x3000).

Fixpoint lstrip (s : str) : str :=
match s with
| [] => []
| c :: s' => if isspace c then lstrip s' else s
end.

Definition rstrip (s : str) : str := rev (lstrip (rev s)).

(** [s.strip()]: whitespace removed at both ends. *)
Definition strip (s : str) : str := rstrip (lstrip s).

(** [str.upper] of one character.  The mapping is the full Unicode one
    (a character may expand to several) on ASCII and on every code point
    whose upper-case form begins with one of the letters S, E, L, C, T:
    U+00DF, U+017F, U+1E97, U+FB05 and U+FB06.  Any other character is
    left in place: neither it nor its upper-case form begins with one of
    these letters, so a comparison of the result against ["SELECT"] fails
    at that position either way. *)
Definition upper_cp (c : codepoint) : list codepoint :=
if (0x61 <=? c) && (c <=? 0x7A) then [c - 0x20]
else if c =? 0xDF then [0x53; 0x53]
else if c =? 0x17F then [0x53]
else if c =? 0x1E97 then [0x54; 0x308]
else if (c =? 0xFB05) || (c =? 0xFB06) then [0x53; 0x54]
else [c].

(** [s.upper()] *)
Definition upper (s : str) : str := flat_map upper_cp s.

(** [s.startswith(prefix)] *)
Fixpoint startswith (prefix s : str) : bool :=
match prefix, s with
| [], _ => true
| _ :: _, [] => false
| p :: prefix', c :: s' => (p =? c) && startswith prefix' s'
end.

(** [str(n)] for an integer. *)
Definition str_of_int (n : Z) : str :=
of_string (NilZero.string_of_int (Z.to_int n)).

(** [sep.join(parts)] *)
Fixpoint join (sep : str) (parts : list str) : str :=
match parts with
| [] => []
| [p] => p
| p :: parts' => p ++ sep ++ join sep parts'
end.

Definition newline : str := [0x0A].

(** The empty string. *)
Definition empty : str := [].

End PyStr.

Import PyStr.

Local Close Scope N_scope.
Local Open Scope Z_scope.

Definition str_eqb (a b : str) : bool :=
if list_eq_dec N.eq_dec a b then true else false.

(** ** Exceptions, outcomes and the world *)

(** The exceptions that reach the tool layer: the [ValueError]s it raises
    itself, the [KeyError] of a row access, and whatever a collaborator
    (data store, tool host, file system, JSON parser) raises, kept as its
    class name and its text.  [Foreign] is for the classes that derive
    from [Exception]; [Interrupt] is for the ones that derive from
    [BaseException] only, which [except Exception] does not catch:
    [asyncio.CancelledError], raised at an [await] when the host cancels
    the request, [KeyboardInterrupt] and [SystemExit]. *)
Inductive exn : Type :=
| ValueError (msg : str)
| KeyError (key : str)
| Foreign (cls : string) (msg : str)
| Interrupt (cls : string) (msg : str).

(** [isinstance(e, Exception)] *)
Definition is_exception (e : exn) : bool :=
match e with
| Interrupt _ _ => false
| _ => true
end.

(** [str(e)].  For a [KeyError] this is the [repr] of the key, which for
    the keys used here is the key between single quotes. *)
Definition exn_str (e : exn) : str :=
match e with
| ValueError msg => msg
| KeyError key => of_string "'" ++ key ++ of_string "'"
| Foreign _ msg => msg
| Interrupt _ msg => msg
end.

Inductive outcome (A : Type) : Type :=
| Ok (a : A)
| Raise (e : exn).

Arguments Ok {A} a.
Arguments Raise {A} e.

(** A cell of a result row.  Rows are dynamic mappings in the source; the
    cells modelled are the ones the introspection queries return. *)
Inductive value : Type :=
| VNone
| VBool (b : bool)
| VInt (n : Z)
| VStr (s : str).

(** A row: a [dict] from column name to cell, in column order. *)
Definition Row : Type := list (str * value).

(** The bound parameters of a statement: a [dict] of strings. *)
Definition Params : Type := list (str * str).

(** The awaited calls on the request context.  [ctx.report_progress] is
    always called with [progress=1.0] and [total=1.0]; only its message
    varies. *)
Inductive HostCall : Type :=
| ctx_info (message : str)
| ctx_debug (message : str)
| ctx_error (message : str)
| ctx_report_progress (message : str)
| send_resource_list_changed.

Inductive Event : Type :=
| Host (c : HostCall)
| Execute (sql : str) (params : option Params) (row_limit : option Z).

(** The process-wide state: the memo's findings, and every call made on a
    collaborator so far, oldest first. *)
Record World : Type := mkWorld {
  insights : list str;
  trace : list Event
}.

Definition record (e : Event) (w : World) : World :=
{| insights := insights w; trace := trace w ++ [e] |}.

(** The statements that reached the data store, oldest first. *)
Fixpoint forwarded (t : list Event) : list (str * option Params * option Z) :=
match t with
| [] => []
| Execute sql params row_limit :: t' => (sql, params, row_limit) :: forwarded t'
| Host _ :: t' => forwarded t'
end.

(** ** A state and exception monad for the handlers *)

Definition M (A : Type) : Type := World -> outcome A * World.

Definition ret {A} (a : A) : M A := fun w => (Ok a, w).

Definition raise {A} (e : exn) : M A := fun w => (Raise e, w).

Definition bind {A B} (m : M A) (k : A -> M B) : M B :=
fun w =>
  match m w with
  | (Ok a, w') => k a w'
  | (Raise e, w') => (Raise e, w')
  end.

Notation "x <- m ;; k" := (bind m (fun x => k))
  (at level 61, m at next level, right associativity).
Notation "m ;;; k" := (bind m (fun _ => k))
  (at level 61, right associativity).

(** [try: body  except Exception as e: handler(e); raise].  The clause
    catches the instances of [Exception] only; anything else leaves the
    statement as it is, without the handler.  The bare [raise] re-raises
    [e]; an exception raised by the handler itself replaces it. *)
Definition try_reraise {A} (body : M A) (handler : exn -> M unit) : M A :=
fun w =>
  match body w with
  | (Ok a, w') => (Ok a, w')
  | (Raise e, w') =>
      if is_exception e then
        match handler e w' with
        | (Ok _, w'') => (Raise e, w'')
        | (Raise e', w'') => (Raise e', w'')
        end
      else (Raise e, w')
  end.

(** Lifting of a computation without effects. *)
Definition lift {A} (o : outcome A) : M A := fun w => (o, w).

(** A list comprehension whose element expression may raise. *)
Fixpoint comprehension {A B} (f : A -> outcome B) (l : list A)
  : outcome (list B) :=
match l with
| [] => Ok []
| a :: l' =>
    match f a with
    | Raise e => Raise e
    | Ok b =>
        match comprehension f l' with
        | Raise e => Raise e
        | Ok bs => Ok (b :: bs)
        end
    end
end.

(** [row[key]] *)
Fixpoint getitem (row : Row) (key : str) : outcome value :=
match row with
| [] => Raise (KeyError key)
| (k, v) :: row' => if str_eqb k key then Ok v else getitem row' key
end.

(** [row.get(key)] *)
Definition get (row : Row) (key : str) : value :=
match getitem row key with
| Ok v => v
| Raise _ => VNone
end.

(** ** The collaborators *)

(** The tool host: for each awaited call, [None] when it is delivered and
    [Some e] when it raises [e]. *)
Definition ToolHost : Type := HostCall -> option exn.

(** A host on which every call is delivered. *)
Definition delivers_all (ctx : ToolHost) : Prop := forall c, ctx c = None.

(** The database behind the data store: what a statement with its bound
    parameters evaluates to, all rows, or the error it fails with. *)
Definition Database : Type := str -> option Params -> outcome (list Row).

(** ** The response types *)

(** Modelled from the spec: [models.py] is not part of the sources; the
    records have the fields section 3 of the specification lists, and the
    cells of a row are stored as they come. *)
Record TableInfo : Type := mkTableInfo {
  table_name : value
}.

Record ColumnInfo : Type := mkColumnInfo {
  column_name : value;
  data_type : value;
  character_maximum_length : value
}.

Record QueryResult : Type := mkQueryResult {
  rows : list Row;
  row_count : Z;
  truncated : bool
}.

Record InsightResponse : Type := mkInsightResponse {
  success : bool;
  total_insights : Z;
  message : str
}.

(** [len(l)] *)
Definition len {A} (l : list A) : Z := Z.of_nat (List.length l).

(** ** The insight memo *)

Module MemoManager.

(** Modelled from the spec: [memo_manager.py] is not part of the sources.
    Section 4.2: appending fails with InvalidArgument if the finding is
    empty or whitespace-only, and otherwise appends to the tail; the
    rendering is a fixed placeholder when the memo is empty and otherwise
    a bulleted rendering of all findings in append order.  The
    specification names the kind of the error only; as in [server.py] an
    invalid argument is a [ValueError]. *)
Definition InvalidArgument : exn := ValueError (of_string "InvalidArgument").

(** Empty or whitespace-only. *)
Definition blank (finding : str) : bool := forallb isspace finding.

Definition add_insights (finding : str) : M unit :=
fun w =>
  if blank finding then (Raise InvalidArgument, w)
  else (Ok tt, {| insights := insights w ++ [finding]; trace := trace w |}).

Definition placeholder : str := of_string "No insights have been recorded yet.".

Definition bullet (finding : str) : str := of_string "- " ++ finding.

Definition render (findings : list str) : str :=
match findings with
| [] => placeholder
| _ :: _ => join newline (map bullet findings)
end.

Definition get_insights_memo : M str :=
fun w => (Ok (render (insights w)), w).

End MemoManager.

(** ** The tool surface of [server.py] *)

Definition list_tables_sql : str :=
join newline
  [ empty;
    of_string "            SELECT table_name ";
    of_string "            FROM information_schema.tables ";
    of_string "            WHERE table_schema = 'ctgov'";
    of_string "            ORDER BY table_name;";
    of_string "        " ].

Definition describe_table_sql : str :=
join newline
  [ empty;
    of_string "            SELECT column_name, data_type, character_maximum_length";
    of_string "            FROM information_schema.columns";
    of_string "            WHERE table_schema = 'ctgov' ";
    of_string "            AND table_name = %s";
    of_string "            ORDER BY ordinal_position;";
    of_string "        " ].

(** The default of the [max_rows] parameter of [read_query]. *)
Definition default_max_rows : Z := 25.

(** The test of the SELECT-only guard on the caller's string:
    [query.strip().upper().startswith("SELECT")]. *)
Definition select_guard (query : str) : bool :=
startswith (of_string "SELECT") (upper (strip query)).

Section Server.

Variable db : Database.
Variable ctx : ToolHost.

(** [await] of a call on the request context. *)
Definition await (c : HostCall) : M unit :=
fun w =>
  match ctx c with
  | None => (Ok tt, record (Host c) w)
  | Some e => (Raise e, record (Host c) w)
  end.

(** Modelled from the spec: [database.py] is not part of the sources.
    Sections 2 and 6: the data store executes a statement with optional
    bound parameters and an optional row cap, returns the rows in order,
    and fails with the database's error; the cap keeps the first
    [row_limit] rows. *)
Definition execute_query (sql : str) (params : option Params)
  (row_limit : option Z) : M (list Row) :=
fun w =>
  let w' := record (Execute sql params row_limit) w in
  match db sql params with
  | Raise e => (Raise e, w')
  | Ok all_rows =>
      match row_limit with
      | None => (Ok all_rows, w')
      | Some n => (Ok (firstn (Z.to_nat n) all_rows), w')
      end
  end.

(** The resource [memo://insights]. *)
Definition get_insights_memo : M str := MemoManager.get_insights_memo.

Definition list_tables : M (list TableInfo) :=
try_reraise
  (await (ctx_info (of_string "Fetching AACT database tables...")) ;;;
   results <- execute_query list_tables_sql None None ;;
   await (ctx_debug (of_string "Retrieved " ++ str_of_int (len results)
                     ++ of_string " tables")) ;;;
   lift (comprehension
           (fun row =>
              match getitem row (of_string "table_name") with
              | Raise e => Raise e
              | Ok v => Ok {| table_name := v |}
              end)
           results))
  (fun e => await (ctx_error (of_string "Failed to list tables: " ++ exn_str e))).

Definition describe_table (table_name : str) : M (list ColumnInfo) :=
if is_empty table_name then raise (ValueError (of_string "Missing table_name argument"))
else
try_reraise
  (await (ctx_info (of_string "Examining structure of table: " ++ table_name)) ;;;
   results <- execute_query describe_table_sql
                (Some [(of_string "table_name", table_name)]) None ;;
   await (ctx_debug (of_string "Retrieved " ++ str_of_int (len results)
                     ++ of_string " columns for table " ++ table_name)) ;;;
   lift (comprehension
           (fun row =>
              match getitem row (of_string "column_name") with
              | Raise e => Raise e
              | Ok cn =>
                  match getitem row (of_string "data_type") with
                  | Raise e => Raise e
                  | Ok dt =>
                      Ok {| column_name := cn;
                            data_type := dt;
                            character_maximum_length :=
                              get row (of_string "character_maximum_length") |}
                  end
              end)
           results))
  (fun e => await (ctx_error (of_string "Failed to describe table " ++ table_name
                              ++ of_string ": " ++ exn_str e))).

Definition read_query (query : str) (max_rows : Z) : M QueryResult :=
if is_empty query then raise (ValueError (of_string "Missing query argument"))
else
let query := strip query in
if negb (startswith (of_string "SELECT") (upper query))
then raise (ValueError (of_string "Only SELECT queries are allowed"))
else
try_reraise
  (await (ctx_info (of_string "Executing query (max " ++ str_of_int max_rows
                    ++ of_string " rows)...")) ;;;
   results <- execute_query query None (Some max_rows) ;;
   let row_count := len results in
   await (ctx_debug (of_string "Query returned " ++ str_of_int row_count
                     ++ of_string " rows")) ;;;
   (if row_count >? 10
    then await (ctx_report_progress
                  (of_string "Retrieved " ++ str_of_int row_count
                   ++ of_string " rows"))
    else ret tt) ;;;
   ret {| rows := results;
          row_count := row_count;
          truncated := (row_count >=? max_rows) |})
  (fun e => await (ctx_error (of_string "Query execution failed: " ++ exn_str e))).

(** [read_query] called without [max_rows]. *)
Definition read_query_default (query : str) : M QueryResult :=
read_query query default_max_rows.

Definition append_insight (finding : str) : M InsightResponse :=
if is_empty finding then raise (ValueError (of_string "Missing finding argument"))
else
try_reraise
  (MemoManager.add_insights finding ;;;
   total <- (fun w => (Ok (len (insights w)), w)) ;;
   await (ctx_info (of_string "Insight recorded successfully (total: "
                    ++ str_of_int total ++ of_string ")")) ;;;
   await send_resource_list_changed ;;;
   ret {| success := true;
          total_insights := total;
          message := of_string "Insight added successfully" |})
  (fun e => await (ctx_error (of_string "Failed to add insight: " ++ exn_str e))).

End Server.

(** A host that delivers every call, and a database with [k] one-cell
    rows for every statement. *)
Definition quiet_host : ToolHost := fun _ => None.

Definition numbered_rows (k : nat) : list Row :=
map (fun i => [(of_string "n", VInt (Z.of_nat i))]) (seq 0 k).

Definition sample_db (k : nat) : Database := fun _ _ => Ok (numbered_rows k).

Definition empty_world : World := {| insights := []; trace := [] |}.

(** ** The schema document *)

(** A JSON document as [json.load] returns it: [dict]s keep the order of
    their members.  Numbers with a fraction are left out. *)
Inductive json : Type :=
| JNull
| JBool (b : bool)
| JInt (n : Z)
| JStr (s : str)
| JList (items : list json)
| JDict (members : list (str * json)).

Module Json.

Definition hex_digit (d : N) : codepoint :=
if (d <? 10)%N then (0x30 + d)%N else (0x57 + d)%N.

(** [format(n, "04x")] for a code unit below [0x10000]. *)
Definition hex4 (n : N) : str :=
[ hex_digit ((n / 0x1000) mod 16)%N; hex_digit ((n / 0x100) mod 16)%N;
  hex_digit ((n / 0x10) mod 16)%N; hex_digit (n mod 16)%N ].

Definition unicode_escape (n : N) : str := of_string "\u" ++ hex4 n.

(** The escape of one character with [ensure_ascii=True]: the printable
    ASCII characters other than the quote and the backslash stand for
    themselves, the others are escaped, above the basic plane as a
    surrogate pair. *)
Definition escape_cp (c : codepoint) : str :=
if (c =? 0x5C)%N then of_string "\\"
else if (c =? 0x22)%N then [0x5C; 0x22]%N
else if (c =? 0x08)%N then of_string "\b"
else if (c =? 0x0C)%N then of_string "\f"
else if (c =? 0x0A)%N then of_string "\n"
else if (c =? 0x0D)%N then of_string "\r"
else if (c =? 0x09)%N then of_string "\t"
else if ((0x20 <=? c) && (c <=? 0x7E))%N then [c]
else if (c <? 0x10000)%N then unicode_escape c
else
  let n := (c - 0x10000)%N in
  unicode_escape (N.lor 0xD800 (N.land (N.shiftr n 10) 0x3FF))
  ++ unicode_escape (N.lor 0xDC00 (N.land n 0x3FF)).

Definition quote : str := [0x22%N].

Definition encode_str (s : str) : str := quote ++ flat_map escape_cp s ++ quote.

(** A line break followed by the indentation of a nesting level, two
    spaces a level. *)
Definition newline_indent (level : nat) : str :=
newline ++ repeat 0x20%N (2 * level).

(** [json.dumps(value, indent=2)], from nesting level [level]. *)
Fixpoint encode (level : nat) (j : json) : str :=
match j with
| JNull => of_string "null"
| JBool true => of_string "true"
| JBool false => of_string "false"
| JInt n => str_of_int n
| JStr s => encode_str s
| JList [] => of_string "[]"
| JList items =>
    of_string "[" ++ newline_indent (S level)
    ++ join (of_string "," ++ newline_indent (S level))
         (map (encode (S level)) items)
    ++ newline_indent level ++ of_string "]"
| JDict [] => of_string "{}"
| JDict members =>
    of_string "{" ++ newline_indent (S level)
    ++ join (of_string "," ++ newline_indent (S level))
         (map (fun kv => encode_str (fst kv) ++ of_string ": "
                         ++ encode (S level) (snd kv)) members)
    ++ newline_indent level ++ of_string "}"
end.

Definition dumps_indent2 (j : json) : str := encode 0 j.

End Json.

(** What the module holds once it is imported: the schema, and the
    records written to the logger at error level. *)
Record Startup : Type := mkStartup {
  schema : json;
  logged_errors : list str
}.

Section SchemaLoad.

(** [open(schema_path)] and the reading of the file: its text, or the
    error of the file system. *)
Variable open_schema : outcome str.

(** [json.load] on the text read. *)
Variable json_load : str -> outcome json.

(** The body of the [try]: [with open(schema_path) as f: json.load(f)]. *)
Definition read_and_parse : outcome json :=
match open_schema with
| Raise e => Raise e
| Ok text => json_load text
end.

(** The module-level [try]/[except Exception] around the load: an
    instance of [Exception] is logged and leaves the empty mapping,
    anything else is not caught. *)
Definition load_schema : outcome Startup :=
match read_and_parse with
| Ok document => Ok {| schema := document; logged_errors := [] |}
| Raise e =>
    if is_exception e then
      Ok {| schema := JDict [];
            logged_errors := [of_string "Error loading schema: " ++ exn_str e] |}
    else Raise e
end.

End SchemaLoad.

(** The resource [schema://database]. *)
Definition get_schema (s : Startup) : str := Json.dumps_indent2 (schema s).

Definition sample_schema : json :=
JDict [ (of_string "schema_version", JStr (of_string "1.0"));
        (of_string "database", JStr (of_string "aact"));
        (of_string "tables",
         JDict [ (of_string "studies",
                  JList [JStr (of_string "nct_id"); JStr (of_string "brief_title")]);
                 (of_string "empty", JList []) ]) ].

(** A literal in which the apostrophe stands for the double quote. *)
Definition of_quoted (s : string) : str :=
map (fun c => if (c =? 0x27)%N then 0x22%N else c) (of_string s).

(** ** Paths *)

Module PyPath.

(** A path of [pathlib]: whether it is anchored at the root, and its
    components below the anchor.  The current directory is the relative
    path without component. *)
Record Path : Type := mkPath {
  absolute : bool;
  parts : list str
}.

(** [p.parent] *)
Definition parent (p : Path) : Path :=
{| absolute := absolute p; parts := removelast (parts p) |}.

(** [p / name], for a name that holds no separator. *)
Definition child (p : Path) (name : str) : Path :=
{| absolute := absolute p; parts := parts p ++ [name] |}.

(** [str(p)] *)
Definition path_str (p : Path) : str :=
match absolute p, parts p with
| false, [] => of_string "."
| false, _ :: _ => join (of_string "/") (parts p)
| true, _ => of_string "/" ++ join (of_string "/") (parts p)
end.

End PyPath.

(** [schema_path] of [server.py], from the module's [__file__]. *)
Definition schema_path (file : PyPath.Path) : PyPath.Path :=
PyPath.child (PyPath.child (PyPath.parent file) (of_string "resources"))
  (of_string "database_schema.json").

(** ** The schema generator, [scripts/generate_json_schema.py] *)

Module Script.

Import PyPath.

(** The keyword arguments of [psycopg2.connect]. *)
Record ConnectArgs : Type := mkConnectArgs {
  host : str;
  database : str;
  user : str;
  password : str
}.

(** A row of the generator's query: a table and the names of its columns
    in ordinal position. *)
Record SchemaRow : Type := mkSchemaRow {
  table_name : str;
  columns : list str
}.

(** The calls on the outside, in order. *)
Inductive Event : Type :=
| Connect (args : ConnectArgs)
| OpenCursor
| ExecuteSql (sql : str)
| CloseCursor
| CloseConnection
| MkDir (p : Path)
| OpenWrite (p : Path)
| WriteFile (p : Path) (text : str)
| CloseFile (p : Path)
| Print (line : str).

(** Where the writing of a file fails: [open(p, 'w')] raises and the file
    is left as it was; or the file is open, hence emptied, and the
    streaming of the text raises after its first [written] characters;
    or the whole text was handed over and closing the file raises. *)
Inductive WriteFailure : Type :=
| OpenFailed (e : exn)
| DumpFailed (written : nat) (e : exn)
| CloseFailed (e : exn).

(** What the process finds outside: the environment once [load_dotenv]
    has run, the database server and the file system.  A call answers
    [None] when it succeeds and [Some e] when it raises [e]; [fs_write]
    answers for the three steps of writing a text to a file, opening,
    streaming and closing, with [None] when all three succeed. *)
Record Outside : Type := mkOutside {
  environ : list (str * str);
  pg_connect : ConnectArgs -> option exn;
  pg_cursor : option exn;
  pg_execute : str -> outcome (list SchemaRow);
  fs_mkdir : Path -> option exn;
  fs_write : Path -> str -> option WriteFailure
}.

Definition S (A : Type) : Type := list Event -> outcome A * list Event.

Definition sret {A} (a : A) : S A := fun t => (Ok a, t).

Definition sraise {A} (e : exn) : S A := fun t => (Raise e, t).

Definition sbind {A B} (m : S A) (k : A -> S B) : S B :=
fun t =>
  match m t with
  | (Ok a, t') => k a t'
  | (Raise e, t') => (Raise e, t')
  end.

Notation "x <~ m ;; k" := (sbind m (fun x => k))
  (at level 61, m at next level, right associativity).
Notation "m >>> k" := (sbind m (fun _ => k))
  (at level 61, right associativity).

(** A call on the outside that answers nothing. *)
Definition call (e : Event) (answer : option exn) : S unit :=
fun t =>
  match answer with
  | None => (Ok tt, t ++ [e])
  | Some err => (Raise err, t ++ [e])
  end.

(** The body of a [with] statement whose context manager makes the call
    [exit] when the body is left, normally or by an exception. *)
Definition with_exit {A} (body : S A) (exit : Event) : S A :=
fun t =>
  match body t with
  | (r, t') => (r, t' ++ [exit])
  end.

(** [os.environ.get(name)] *)
Fixpoint environ_get (env : list (str * str)) (name : str) : option str :=
match env with
| [] => None
| (k, v) :: env' => if str_eqb k name then Some v else environ_get env' name
end.

(** [d[key] = v] on a [dict]: the value of a key already present is
    replaced where it stands, a new key goes to the end. *)
Fixpoint dict_set {V} (key : str) (v : V) (d : list (str * V)) : list (str * V) :=
match d with
| [] => [(key, v)]
| (k, v') :: d' =>
    if str_eqb k key then (k, v) :: d' else (k, v') :: dict_set key v d'
end.

(** [d.get(key)] *)
Fixpoint dict_get {V} (key : str) (d : list (str * V)) : option V :=
match d with
| [] => None
| (k, v) :: d' => if str_eqb k key then Some v else dict_get key d'
end.

Definition schema_sql : str :=
join newline
  [ empty;
    of_string "                SELECT ";
    of_string "                    table_name,";
    of_string "                    array_agg(column_name ORDER BY ordinal_position) as columns";
    of_string "                FROM information_schema.columns";
    of_string "                WHERE table_schema = 'ctgov'";
    of_string "                GROUP BY table_name";
    of_string "                ORDER BY table_name;";
    of_string "            " ].

(** [{row['table_name']: row['columns'] for row in rows}] *)
Definition tables_of (rows : list SchemaRow) : list (str * list str) :=
fold_left (fun d row => dict_set (table_name row) (columns row) d) rows [].

(** The dictionary [get_schema_info] returns, as a document. *)
Definition schema_info (rows : list SchemaRow) : json :=
JDict [ (of_string "schema_version", JStr (of_string "1.0"));
        (of_string "database", JStr (of_string "aact"));
        (of_string "tables",
         JDict (map (fun kv => (fst kv, JList (map JStr (snd kv))))
                  (tables_of rows))) ].

Section Run.

Variable out : Outside.

(** [__file__] of the script. *)
Variable file : Path.

Definition get_db_connection : S unit :=
match environ_get (environ out) (of_string "DB_USER") with
| None =>
    sraise (ValueError
              (of_string "Missing required environment variable: DB_USER"))
| Some db_user =>
    match environ_get (environ out) (of_string "DB_PASSWORD") with
    | None =>
        sraise (ValueError
                  (of_string "Missing required environment variable: DB_PASSWORD"))
    | Some db_password =>
        let args := {| host := of_string "aact-db.ctti-clinicaltrials.org";
                       database := of_string "aact";
                       user := db_user;
                       password := db_password |} in
        call (Connect args) (pg_connect out args)
    end
end.

Definition get_schema_info : S json :=
get_db_connection >>>
with_exit
  (call OpenCursor (pg_cursor out) >>>
   with_exit
     (rows <~ (fun t => (pg_execute out schema_sql, t ++ [ExecuteSql schema_sql])) ;;
      sret (schema_info rows))
     CloseCursor)
  CloseConnection.

Definition resource_dir : Path :=
child (child (parent (parent file)) (of_string "src")) (of_string "resources").

Definition schema_file : Path :=
child resource_dir (of_string "database_schema.json").

(** [with open(p, 'w') as f: json.dump(document, f, indent=2)], [text]
    being the serialization of the document: the file is opened, which
    empties it, the text is streamed into it, and the file is closed when
    the block is left, also by an exception.  [WriteFile] records what
    reached the file: the text, or the part of it written before the
    failure. *)
Definition write_text (p : Path) (text : str) : S unit :=
fun t =>
  match fs_write out p text with
  | None => (Ok tt, t ++ [OpenWrite p; WriteFile p text; CloseFile p])
  | Some (OpenFailed e) => (Raise e, t ++ [OpenWrite p])
  | Some (DumpFailed written e) =>
      (Raise e, t ++ [OpenWrite p; WriteFile p (firstn written text); CloseFile p])
  | Some (CloseFailed e) =>
      (Raise e, t ++ [OpenWrite p; WriteFile p text; CloseFile p])
  end.

Definition main : S unit :=
call (MkDir resource_dir) (fs_mkdir out resource_dir) >>>
schema <~ get_schema_info ;;
write_text schema_file (Json.dumps_indent2 schema) >>>
call (Print (of_string "Schema generated and saved to " ++ path_str schema_file))
  None.

End Run.

End Script.

(** ** Sample collaborators and values *)

(** A host on which the resource-changed signal cannot be sent and every
    other call is delivered. *)
Definition closed_stream : exn := Foreign "ClosedResourceError" empty.

Definition lossy_host : ToolHost :=
fun c =>
  match c with
  | send_resource_list_changed => Some closed_stream
  | _ => None
  end.

(** What the caller of [append_insight] observes: a response, or an
    exception. *)
Definition append_succeeds (ctx : ToolHost) (finding : str) (w : World) : bool :=
match fst (append_insight ctx finding w) with
| Ok _ => true
| Raise _ => false
end.

(** The response of a successful [append_insight]. *)
Definition added (total : Z) : InsightResponse :=
{| success := true;
   total_insights := total;
   message := of_string "Insight added successfully" |}.

Definition missing_file : exn :=
Foreign "FileNotFoundError" (of_string "[Errno 2] No such file or directory").

Definition malformed : exn :=
Foreign "JSONDecodeError" (of_string "Expecting value: line 1 column 1 (char 0)").

(** A host that cancels the request at the first notification. *)
Definition cancelled : exn := Interrupt "CancelledError" empty.

Definition cancelling_host : ToolHost :=
fun c =>
  match c with
  | ctx_info _ => Some cancelled
  | _ => None
  end.

(** ** Further sample values and abbreviations *)

Definition timeout_error : exn :=
Foreign "QueryCanceled" (of_string "canceling statement due to statement timeout").

(** [key in row] *)
Definition has_key (row : Row) (key : str) : bool :=
match getitem row key with
| Ok _ => true
| Raise _ => false
end.

(** The [ColumnInfo] and the [TableInfo] built from a row. *)
Definition column_info_of (row : Row) : ColumnInfo :=
{| column_name := get row (of_string "column_name");
   data_type := get row (of_string "data_type");
   character_maximum_length := get row (of_string "character_maximum_length") |}.

Definition table_info_of (row : Row) : TableInfo :=
{| table_name := get row (of_string "table_name") |}.

(** A database that knows the table [studies], with two columns, and the
    two tables [sponsors] and [studies]. *)
Definition studies_columns : list Row :=
[ [ (of_string "column_name", VStr (of_string "nct_id"));
    (of_string "data_type", VStr (of_string "character varying"));
    (of_string "character_maximum_length", VInt 11) ];
  [ (of_string "column_name", VStr (of_string "start_date"));
    (of_string "data_type", VStr (of_string "date")) ] ].

Definition table_rows : list Row :=
[ [ (of_string "table_name", VStr (of_string "sponsors")) ];
  [ (of_string "table_name", VStr (of_string "studies")) ] ].

Definition catalog_db : Database :=
fun sql params =>
  match params with
  | Some [(_, name)] =>
      if str_eqb name (of_string "studies") then Ok studies_columns else Ok []
  | _ => if str_eqb sql list_tables_sql then Ok table_rows else Ok []
  end.

(** The key [describe_table] misses first in a row that lacks one: it
    reads [column_name] before [data_type]. *)
Definition first_missing_key (row : Row) : str :=
if has_key row (of_string "column_name")
then of_string "data_type"
else of_string "column_name".

(** A database that answers with a complete row, then a row without
    [data_type], then a row without [column_name]. *)
Definition full_row : Row :=
[ (of_string "column_name", VStr (of_string "nct_id"));
  (of_string "data_type", VStr (of_string "character varying")) ].

Definition no_type_row : Row :=
[ (of_string "column_name", VStr (of_string "start_date")) ].

Definition no_name_row : Row :=
[ (of_string "data_type", VStr (of_string "date")) ].

Definition mixed_db : Database :=
fun _ _ => Ok [full_row; no_type_row; no_name_row].

Import PyPath.

(** An outside where everything works and the database has two tables, a
    database server that refuses the query, and an environment without
    password. *)
Definition sample_rows : list Script.SchemaRow :=
[ {| Script.table_name := of_string "sponsors";
     Script.columns := [of_string "id"; of_string "name"] |};
  {| Script.table_name := of_string "studies";
     Script.columns := [of_string "nct_id"] |} ].

Definition good_outside : Script.Outside :=
{| Script.environ := [ (of_string "HOME", of_string "/root");
                       (of_string "DB_USER", of_string "alice");
                       (of_string "DB_PASSWORD", of_string "secret") ];
   Script.pg_connect := fun _ => None;
   Script.pg_cursor := None;
   Script.pg_execute := fun _ => Ok sample_rows;
   Script.fs_mkdir := fun _ => None;
   Script.fs_write := fun _ _ => None |}.

Definition failing_query_outside : Script.Outside :=
{| Script.environ := Script.environ good_outside;
   Script.pg_connect := fun _ => None;
   Script.pg_cursor := None;
   Script.pg_execute := fun _ => Raise timeout_error;
   Script.fs_mkdir := fun _ => None;
   Script.fs_write := fun _ _ => None |}.

Definition no_password_outside : Script.Outside :=
{| Script.environ := [ (of_string "DB_USER", of_string "alice") ];
   Script.pg_connect := fun _ => None;
   Script.pg_cursor := None;
   Script.pg_execute := fun _ => Ok sample_rows;
   Script.fs_mkdir := fun _ => None;
   Script.fs_write := fun _ _ => None |}.

Definition alice_args : Script.ConnectArgs :=
{| Script.host := of_string "aact-db.ctti-clinicaltrials.org";
   Script.database := of_string "aact";
   Script.user := of_string "alice";
   Script.password := of_string "secret" |}.

(** The two files in a checkout at [/repo]. *)
Definition repo : Path := {| absolute := true; parts := [of_string "repo"] |}.

Definition script_file (root : Path) : Path :=
child (child root (of_string "scripts")) (of_string "generate_json_schema.py").

Definition server_file (root : Path) : Path :=
child (child root (of_string "src")) (of_string "server.py").

(** A parser that knows the serialization of the sample document. *)
Definition sample_parser (text : str) : outcome json :=
if str_eqb text (Json.dumps_indent2 (Script.schema_info sample_rows))
then Ok (Script.schema_info sample_rows)
else Raise malformed.

(** A printable ASCII character or a line feed. *)
Definition plain (c : codepoint) : bool :=
((c =? 0x0A) || ((0x20 <=? c) && (c <=? 0x7E)))%N.

Definition disk_full : exn :=
Foreign "OSError" (of_string "[Errno 28] No space left on device").

(** An outside where the disk fills up after the first twelve characters
    of the schema file. *)
Definition full_disk_outside : Script.Outside :=
{| Script.environ := Script.environ good_outside;
   Script.pg_connect := fun _ => None;
   Script.pg_cursor := None;
   Script.pg_execute := fun _ => Ok sample_rows;
   Script.fs_mkdir := fun _ => None;
   Script.fs_write := fun _ _ => Some (Script.DumpFailed 12 disk_full) |}.

(** * Properties *)

Arguments of_string : simpl never.
Arguments str_of_int : simpl never.

(** ** The model on sample inputs *)

Example strip_sample :
  strip (of_string "  insert into x ") = of_string "insert into x".
Proof. reflexivity. Qed.

Example upper_sample :
  upper (of_string "Select * from t") = of_string "SELECT * FROM T".
Proof. reflexivity. Qed.

Example str_of_int_sample :
  str_of_int 25 = of_string "25" /\ str_of_int 0 = of_string "0"
  /\ str_of_int (-3) = of_string "-3".
Proof. repeat split. Qed.

Example list_tables_sql_text :
  list_tables_sql = of_string "
            SELECT table_name 
            FROM information_schema.tables 
            WHERE table_schema = 'ctgov'
            ORDER BY table_name;
        ".
Proof. reflexivity. Qed.

Example describe_table_sql_text :
  describe_table_sql = of_string "
            SELECT column_name, data_type, character_maximum_length
            FROM information_schema.columns
            WHERE table_schema = 'ctgov' 
            AND table_name = %s
            ORDER BY ordinal_position;
        ".
Proof. reflexivity. Qed.

Example read_query_sample :
  fst (read_query (sample_db 3) quiet_host (of_string " select n from t ") 2 empty_world)
  = Ok {| rows := numbered_rows 2; row_count := 2; truncated := true |}.
Proof. reflexivity. Qed.

Example cancelled_query :
  read_query (sample_db 3) cancelling_host (of_string "select 1") 25 empty_world
  = (Raise cancelled,
     {| insights := [];
        trace := [Host (ctx_info (of_string "Executing query (max 25 rows)..."))] |}).
Proof. reflexivity. Qed.

Example dumps_sample :
  Json.dumps_indent2 sample_schema = of_quoted "{
  'schema_version': '1.0',
  'database': 'aact',
  'tables': {
    'studies': [
      'nct_id',
      'brief_title'
    ],
    'empty': []
  }
}".
Proof. reflexivity. Qed.

Example dumps_escapes :
  Json.dumps_indent2
    (JList [ JStr ([0x61; 0x22; 0x62; 0x5C; 0x63; 0x7F; 0xE9; 0x1F600; 0x0A; 0x01]%N);
             JInt (-5); JNull; JBool true; JDict [] ])
  = of_quoted "[
  'a\'b\\c\u007f\u00e9\ud83d\ude00\n\u0001',
  -5,
  null,
  true,
  {}
]".
Proof. reflexivity. Qed.

(** ** Strings *)

Lemma lstrip_blank (s : str) : forallb isspace s = true -> lstrip s = [].
Proof.
  induction s as [|c s IH]; simpl; [reflexivity|].
  intros H. apply andb_prop in H. destruct H as [Hc Hs].
  rewrite Hc. exact (IH Hs).
Qed.

Lemma strip_blank (s : str) : forallb isspace s = true -> strip s = [].
Proof.
  intros H. unfold strip, rstrip. rewrite (lstrip_blank s H). reflexivity.
Qed.

Lemma select_guard_blank (s : str) :
  forallb isspace s = true -> select_guard s = false.
Proof.
  intros H. unfold select_guard. rewrite (strip_blank s H). reflexivity.
Qed.

Lemma forwarded_app (t1 t2 : list Event) :
  forwarded (t1 ++ t2) = forwarded t1 ++ forwarded t2.
Proof.
  induction t1 as [|[c|sql params row_limit] t1 IH]; simpl;
    [reflexivity | exact IH | now rewrite IH].
Qed.

(** ** Rejections before any work is done *)

Lemma read_query_unfold db ctx (c : codepoint) (query : str) (max_rows : Z) :
  select_guard (c :: query) = false ->
  read_query db ctx (c :: query) max_rows
  = raise (ValueError (of_string "Only SELECT queries are allowed")).
Proof.
  intros H. unfold read_query, select_guard in *. cbn [is_empty].
  rewrite H. reflexivity.
Qed.

(** C8.  [describe_table] called with the empty string raises the
    missing-argument [ValueError]; the world is left as it was, so no
    introspection statement reaches the data store (and no notification
    is sent). *)
Theorem describe_table_empty_name (db : Database) (ctx : ToolHost) (w : World) :
  describe_table db ctx empty w
  = (Raise (ValueError (of_string "Missing table_name argument")), w)
  /\ forwarded (trace (snd (describe_table db ctx empty w)))
     = forwarded (trace w).
Proof. split; reflexivity. Qed.

(** C9.  A query that is not empty and consists only of whitespace passes
    the emptiness test, is trimmed to the empty string, and is rejected
    by the SELECT test with "Only SELECT queries are allowed", not with
    the missing-argument error; nothing reaches the data store. *)
Theorem read_query_whitespace_only
  (db : Database) (ctx : ToolHost) (query : str) (max_rows : Z) (w : World) :
  query <> [] ->
  forallb isspace query = true ->
  read_query db ctx query max_rows w
  = (Raise (ValueError (of_string "Only SELECT queries are allowed")), w)
  /\ ValueError (of_string "Only SELECT queries are allowed")
     <> ValueError (of_string "Missing query argument").
Proof.
  intros Hne Hws. split.
  - destruct query as [|c query]; [contradiction|].
    rewrite (read_query_unfold db ctx c query max_rows (select_guard_blank _ Hws)).
    reflexivity.
  - discriminate.
Qed.

Lemma read_query_whitespace_only_witness :
  of_string "   " <> []
  /\ forallb isspace (of_string "   ") = true
  /\ read_query (sample_db 1) quiet_host (of_string "   ") 25 empty_world
     = (Raise (ValueError (of_string "Only SELECT queries are allowed")),
        empty_world).
Proof.
  refine (conj _ (conj _ _)).
  - discriminate.
  - reflexivity.
  - refine (proj1 (read_query_whitespace_only (sample_db 1) quiet_host
                     (of_string "   ") 25 empty_world _ _)).
    + discriminate.
    + reflexivity.
Defined.

(** C1, as the code has it.  A query whose trimmed form does not begin,
    case-insensitively, with SELECT is rejected and the world is left as
    it was, so nothing is forwarded to the data store.  The error is
    "Only SELECT queries are allowed" when the query is not empty; the
    empty string is stopped earlier, by the missing-argument test. *)
Theorem read_query_rejects_non_select
  (db : Database) (ctx : ToolHost) (query : str) (max_rows : Z) (w : World) :
  select_guard query = false ->
  read_query db ctx query max_rows w
  = (Raise (if is_empty query
            then ValueError (of_string "Missing query argument")
            else ValueError (of_string "Only SELECT queries are allowed")),
     w)
  /\ forwarded (trace (snd (read_query db ctx query max_rows w)))
     = forwarded (trace w).
Proof.
  intros H.
  assert (E : read_query db ctx query max_rows w
              = (Raise (if is_empty query
                        then ValueError (of_string "Missing query argument")
                        else ValueError (of_string "Only SELECT queries are allowed")),
                 w)).
  { destruct query as [|c query]; [reflexivity|].
    rewrite (read_query_unfold db ctx c query max_rows H). reflexivity. }
  split; [exact E | now rewrite E].
Qed.

Lemma read_query_rejects_non_select_witness :
  (select_guard (of_string "DELETE FROM studies") = false
   /\ read_query (sample_db 1) quiet_host (of_string "DELETE FROM studies") 25
        empty_world
      = (Raise (ValueError (of_string "Only SELECT queries are allowed")),
         empty_world))
  /\ (select_guard (of_string "  insert into x") = false
      /\ read_query (sample_db 1) quiet_host (of_string "  insert into x") 25
           empty_world
         = (Raise (ValueError (of_string "Only SELECT queries are allowed")),
            empty_world)).
Proof.
  split; (split; [reflexivity|]).
  - exact (proj1 (read_query_rejects_non_select (sample_db 1) quiet_host
                    (of_string "DELETE FROM studies") 25 empty_world eq_refl)).
  - exact (proj1 (read_query_rejects_non_select (sample_db 1) quiet_host
                    (of_string "  insert into x") 25 empty_world eq_refl)).
Defined.

(** C1 as it is stated fails on the empty string: its trimmed form does
    not begin with SELECT, and [read_query] raises the missing-argument
    error, not the SELECT-only rejection. *)
Lemma read_query_empty_not_rejected_query :
  select_guard empty = false
  /\ fst (read_query (sample_db 1) quiet_host empty 25 empty_world)
     = Raise (ValueError (of_string "Missing query argument"))
  /\ fst (read_query (sample_db 1) quiet_host empty 25 empty_world)
     <> Raise (ValueError (of_string "Only SELECT queries are allowed")).
Proof.
  split; [reflexivity|]. split; [reflexivity|]. discriminate.
Qed.

(** ** The insight memo *)

(** A blank finding never changes the memo, whatever the host does with
    the error notification. *)
Lemma append_insight_blank_keeps_memo (ctx : ToolHost) (finding : str) (w : World) :
  MemoManager.blank finding = true ->
  exists e w',
    append_insight ctx finding w = (Raise e, w') /\ insights w' = insights w.
Proof.
  intros Hb. destruct finding as [|c finding].
  - eexists; eexists; split; reflexivity.
  - unfold append_insight. cbn [is_empty].
    unfold try_reraise, bind, MemoManager.add_insights. rewrite Hb.
    unfold await.
    destruct (ctx _); eexists; eexists; split; reflexivity.
Qed.

(** C3.  [append_insight] called with the empty string or with a
    whitespace-only string fails with an invalid-argument error, and the
    memo is as it was: the empty string is stopped by the handler's own
    test, a whitespace-only string by the memo, whose error the handler
    reports to the host and re-raises. *)
Theorem append_insight_blank_rejected (ctx : ToolHost) (finding : str) (w : World) :
  MemoManager.blank finding = true ->
  ctx (ctx_error (of_string "Failed to add insight: "
                  ++ exn_str MemoManager.InvalidArgument)) = None ->
  exists w',
    append_insight ctx finding w
    = (Raise (if is_empty finding
              then ValueError (of_string "Missing finding argument")
              else MemoManager.InvalidArgument),
       w')
    /\ insights w' = insights w
    /\ len (insights w') = len (insights w).
Proof.
  intros Hb Hctx. destruct finding as [|c finding].
  - exists w. repeat split.
  - unfold append_insight. cbn [is_empty].
    unfold try_reraise, bind, MemoManager.add_insights. rewrite Hb.
    unfold await. rewrite Hctx.
    eexists. repeat split.
Qed.

Lemma append_insight_blank_rejected_witness :
  (exists w',
     append_insight quiet_host empty empty_world
     = (Raise (ValueError (of_string "Missing finding argument")), w')
     /\ insights w' = []
     /\ len (insights w') = 0)
  /\ (exists w',
        append_insight quiet_host (of_string "   ") empty_world
        = (Raise MemoManager.InvalidArgument, w')
        /\ insights w' = []
        /\ len (insights w') = 0).
Proof.
  split.
  - exact (append_insight_blank_rejected quiet_host empty empty_world
             eq_refl eq_refl).
  - exact (append_insight_blank_rejected quiet_host (of_string "   ") empty_world
             eq_refl eq_refl).
Defined.

(** One append on a host that delivers the two notifications: the finding
    is added at the tail and the response carries the new length. *)
Lemma append_insight_ok (ctx : ToolHost) (finding : str) (w : World) :
  MemoManager.blank finding = false ->
  ctx (ctx_info (of_string "Insight recorded successfully (total: "
                 ++ str_of_int (len (insights w ++ [finding]))
                 ++ of_string ")")) = None ->
  ctx send_resource_list_changed = None ->
  exists w',
    append_insight ctx finding w
    = (Ok {| success := true;
             total_insights := len (insights w) + 1;
             message := of_string "Insight added successfully" |}, w')
    /\ insights w' = insights w ++ [finding].
Proof.
  intros Hb Hinfo Hsend.
  assert (Hlen : len (insights w ++ [finding]) = len (insights w) + 1).
  { unfold len. rewrite length_app. simpl. lia. }
  destruct finding as [|c finding]; [discriminate|].
  unfold append_insight. cbn [is_empty].
  unfold try_reraise, bind, MemoManager.add_insights. rewrite Hb.
  cbn [insights]. unfold await. rewrite Hinfo. rewrite Hsend.
  unfold ret. rewrite Hlen. eexists. split; reflexivity.
Qed.

(** C6.  From an empty memo, on a host that delivers its notifications,
    appending "a", "b" and "c" one after the other answers with
    [total_insights] 1, 2 and 3, and the memo then renders the three
    findings in that order, one bulleted line each. *)
Theorem three_appends_in_order (ctx : ToolHost) (w0 : World) :
  delivers_all ctx ->
  insights w0 = [] ->
  exists w1 w2 w3,
    append_insight ctx (of_string "a") w0 = (Ok (added 1), w1)
    /\ append_insight ctx (of_string "b") w1 = (Ok (added 2), w2)
    /\ append_insight ctx (of_string "c") w2 = (Ok (added 3), w3)
    /\ insights w3 = [of_string "a"; of_string "b"; of_string "c"]
    /\ get_insights_memo w3
       = (Ok (join newline [of_string "- a"; of_string "- b"; of_string "- c"]),
          w3).
Proof.
  intros Hall Hempty.
  destruct (append_insight_ok ctx (of_string "a") w0 eq_refl (Hall _) (Hall _))
    as [w1 [E1 I1]].
  destruct (append_insight_ok ctx (of_string "b") w1 eq_refl (Hall _) (Hall _))
    as [w2 [E2 I2]].
  destruct (append_insight_ok ctx (of_string "c") w2 eq_refl (Hall _) (Hall _))
    as [w3 [E3 I3]].
  rewrite Hempty in *. rewrite I1 in *. rewrite I2 in *.
  exists w1, w2, w3. repeat split; try assumption.
  unfold get_insights_memo, MemoManager.get_insights_memo. rewrite I3.
  reflexivity.
Qed.

Lemma three_appends_in_order_witness :
  delivers_all quiet_host
  /\ insights empty_world = []
  /\ exists w1 w2 w3,
       append_insight quiet_host (of_string "a") empty_world = (Ok (added 1), w1)
       /\ append_insight quiet_host (of_string "b") w1 = (Ok (added 2), w2)
       /\ append_insight quiet_host (of_string "c") w2 = (Ok (added 3), w3)
       /\ insights w3 = [of_string "a"; of_string "b"; of_string "c"]
       /\ get_insights_memo w3
          = (Ok (join newline [of_string "- a"; of_string "- b"; of_string "- c"]),
             w3).
Proof.
  refine (conj (fun _ => eq_refl) (conj eq_refl _)).
  exact (three_appends_in_order quiet_host empty_world (fun _ => eq_refl) eq_refl).
Defined.

(** ** Notification failure after an append *)

(** C5, as the code has it.  When the resource-changed signal raises
    after a finding was added, the finding stays in the memo, and the
    caller does not get a response: the handler reports the failure to
    the host and re-raises it (or raises what the report itself raised).
    What is not an [Exception], a cancellation, is raised as it is. *)
Theorem append_insight_notification_failure
  (ctx : ToolHost) (finding : str) (w : World) (e : exn) :
  MemoManager.blank finding = false ->
  ctx (ctx_info (of_string "Insight recorded successfully (total: "
                 ++ str_of_int (len (insights w ++ [finding]))
                 ++ of_string ")")) = None ->
  ctx send_resource_list_changed = Some e ->
  exists w',
    append_insight ctx finding w
    = (Raise (if is_exception e
              then match ctx (ctx_error (of_string "Failed to add insight: "
                                         ++ exn_str e)) with
                   | None => e
                   | Some e' => e'
                   end
              else e),
       w')
    /\ insights w' = insights w ++ [finding]
    /\ append_succeeds ctx finding w = false.
Proof.
  intros Hb Hinfo Hsend.
  destruct finding as [|c finding]; [discriminate|].
  unfold append_succeeds, append_insight. cbn [is_empty].
  unfold try_reraise, bind, MemoManager.add_insights. rewrite Hb.
  cbn [insights]. unfold await. rewrite Hinfo. rewrite Hsend.
  destruct (is_exception e); [|eexists; repeat split].
  destruct (ctx (ctx_error _)); eexists; repeat split.
Qed.

Lemma append_insight_notification_failure_witness :
  MemoManager.blank (of_string "a") = false
  /\ lossy_host send_resource_list_changed = Some closed_stream
  /\ exists w',
       append_insight lossy_host (of_string "a") empty_world
       = (Raise closed_stream, w')
       /\ insights w' = [of_string "a"]
       /\ append_succeeds lossy_host (of_string "a") empty_world = false.
Proof.
  refine (conj eq_refl (conj eq_refl _)).
  exact (append_insight_notification_failure lossy_host (of_string "a")
           empty_world closed_stream eq_refl eq_refl eq_refl).
Defined.

(** C5 as it is stated fails: two hosts that differ only in the delivery
    of the resource-changed signal give the caller a response on one and
    an exception on the other, for the same append on the same memo. *)
Lemma append_success_depends_on_notification :
  (forall c, c <> send_resource_list_changed -> lossy_host c = quiet_host c)
  /\ append_succeeds quiet_host (of_string "a") empty_world = true
  /\ append_succeeds lossy_host (of_string "a") empty_world = false
  /\ insights (snd (append_insight lossy_host (of_string "a") empty_world))
     = [of_string "a"].
Proof.
  split; [|repeat split].
  intros [m|m|m|m|] H; try reflexivity. contradiction.
Qed.

(** ** Accepted queries *)

Lemma select_guard_nonempty (query : str) :
  select_guard query = true -> is_empty query = false.
Proof. destruct query; [discriminate | reflexivity]. Qed.

Lemma len_firstn {A} (n : Z) (l : list A) :
  0 <= n -> len (firstn (Z.to_nat n) l) = Z.min (len l) n.
Proof.
  intros Hn. unfold len. rewrite length_firstn. lia.
Qed.

(** Whenever [read_query] returns a result, whatever the host did with
    the notifications: the guard let the query through, the database
    answered, and the result is the capped answer with its length and
    the capacity-reached flag. *)
Lemma read_query_returned_shape
  (db : Database) (ctx : ToolHost) (query : str) (n : Z) (w w' : World)
  (r : QueryResult) :
  read_query db ctx query n w = (Ok r, w') ->
  exists all_rows,
    select_guard query = true
    /\ db (strip query) None = Ok all_rows
    /\ rows r = firstn (Z.to_nat n) all_rows
    /\ row_count r = len (rows r)
    /\ truncated r = (row_count r >=? n).
Proof.
  intros H. destruct query as [|c query]; [discriminate H|].
  unfold read_query in H. cbn [is_empty] in H. unfold select_guard.
  destruct (startswith (of_string "SELECT") (upper (strip (c :: query))));
    cbn [negb] in H; [|discriminate H].
  unfold try_reraise, bind, await, execute_query, ret in H.
  destruct (db (strip (c :: query)) None) as [all_rows|e] eqn:Hdb.
  - exists all_rows.
    repeat match type of H with
           | context [match ?x with _ => _ end] =>
               match x with
               | ctx _ => destruct x
               | _ >? _ => destruct x
               | is_exception _ => destruct x
               end
           end;
      try discriminate H;
      injection H as Hr Hw; subst r; cbn; repeat split.
  - repeat match type of H with
           | context [match ?x with _ => _ end] =>
               match x with
               | ctx _ => destruct x
               | is_exception _ => destruct x
               end
           end; discriminate H.
Qed.

(** C2.  For an accepted query on which the database has [k] rows, run
    with [max_rows = n] (a row cap, [0 <= n]) on a host that delivers its
    notifications, the result holds the first [min k n] rows, its
    [row_count] is [min k n] and is the length of [rows], and [truncated]
    is [row_count >= n]; when [k = n], [truncated] is true although no
    row was left out. *)
Theorem read_query_result_shape
  (db : Database) (ctx : ToolHost) (query : str) (n : Z)
  (all_rows : list Row) (w : World) :
  select_guard query = true ->
  db (strip query) None = Ok all_rows ->
  0 <= n ->
  delivers_all ctx ->
  exists r w',
    read_query db ctx query n w = (Ok r, w')
    /\ row_count r = Z.min (len all_rows) n
    /\ row_count r = len (rows r)
    /\ truncated r = (row_count r >=? n)
    /\ (len all_rows = n -> truncated r = true /\ rows r = all_rows).
Proof.
  intros Hguard Hdb Hn Hall.
  destruct query as [|c query]; [discriminate|].
  unfold read_query, select_guard in *. cbn [is_empty]. rewrite Hguard.
  cbn [negb].
  unfold try_reraise, bind, await, execute_query. rewrite Hall, Hdb.
  rewrite Hall.
  set (results := firstn (Z.to_nat n) all_rows).
  assert (Hlen : len results = Z.min (len all_rows) n)
    by (apply len_firstn; exact Hn).
  assert (Hshape :
    forall w',
      exists r w'',
        ret {| rows := results; row_count := len results;
               truncated := (len results >=? n) |} w' = (Ok r, w'')
        /\ row_count r = Z.min (len all_rows) n
        /\ row_count r = len (rows r)
        /\ truncated r = (row_count r >=? n)
        /\ (len all_rows = n -> truncated r = true /\ rows r = all_rows)).
  { intros w'. eexists. eexists. split; [reflexivity|]. cbn.
    repeat split; try assumption.
    - rewrite Hlen. apply Z.geb_le. lia.
    - unfold results. apply firstn_all2. unfold len in H. lia. }
  destruct (len results >? 10); [rewrite Hall|]; apply Hshape.
Qed.

Lemma read_query_result_shape_witness :
  select_guard (of_string "SELECT n FROM t") = true
  /\ 0 <= 3
  /\ delivers_all quiet_host
  /\ exists r w',
       read_query (sample_db 3) quiet_host (of_string "SELECT n FROM t") 3
         empty_world = (Ok r, w')
       /\ row_count r = Z.min (len (numbered_rows 3)) 3
       /\ row_count r = len (rows r)
       /\ truncated r = (row_count r >=? 3)
       /\ (len (numbered_rows 3) = 3
           -> truncated r = true /\ rows r = numbered_rows 3).
Proof.
  refine (conj eq_refl (conj _ (conj (fun _ => eq_refl) _))).
  - discriminate.
  - refine (read_query_result_shape (sample_db 3) quiet_host
              (of_string "SELECT n FROM t") 3 (numbered_rows 3) empty_world
              eq_refl eq_refl _ (fun _ => eq_refl)).
    discriminate.
Defined.

(** What [read_query] does to the list of forwarded statements once the
    guard has let the query through and the first notification has been
    delivered: the trimmed query is added, with the row cap, whatever the
    database and the host do afterwards. *)
Lemma read_query_forwards
  (db : Database) (ctx : ToolHost) (query : str) (max_rows : Z) (w : World) :
  select_guard query = true ->
  ctx (ctx_info (of_string "Executing query (max " ++ str_of_int max_rows
                 ++ of_string " rows)...")) = None ->
  forwarded (trace (snd (read_query db ctx query max_rows w)))
  = forwarded (trace w) ++ [(strip query, None, Some max_rows)].
Proof.
  intros Hguard Hinfo.
  destruct query as [|c query]; [discriminate|].
  unfold read_query, select_guard in *. cbn [is_empty]. rewrite Hguard.
  cbn [negb].
  unfold try_reraise, bind, await, execute_query, ret. rewrite Hinfo.
  repeat match goal with
         | |- context [match ?x with _ => _ end] =>
             match x with
             | ctx _ => destruct x
             | db _ _ => destruct x
             | _ >? _ => destruct x
             | is_exception _ => destruct x
             end
         end;
    cbn [snd trace record insights];
    rewrite ?forwarded_app; cbn [forwarded];
    rewrite ?app_nil_r; reflexivity.
Qed.

(** C4, as the code has it.  When the guard lets a query through and the
    first notification is delivered, the statement forwarded to the data
    store is the caller's string with the whitespace at both ends
    removed, without bound parameters, and with [row_limit] equal to
    [max_rows], which is 25 when the caller leaves it out. *)
Theorem read_query_forwards_trimmed
  (db : Database) (ctx : ToolHost) (query : str) (max_rows : Z) (w : World) :
  select_guard query = true ->
  ctx (ctx_info (of_string "Executing query (max " ++ str_of_int max_rows
                 ++ of_string " rows)...")) = None ->
  forwarded (trace (snd (read_query db ctx query max_rows w)))
  = forwarded (trace w) ++ [(strip query, None, Some max_rows)]
  /\ read_query_default db ctx query = read_query db ctx query 25.
Proof.
  intros Hguard Hinfo. split; [|reflexivity].
  exact (read_query_forwards db ctx query max_rows w Hguard Hinfo).
Qed.

Lemma read_query_forwards_trimmed_witness :
  select_guard (of_string "  SELECT 1 ") = true
  /\ forwarded (trace (snd (read_query_default (sample_db 1) quiet_host
                              (of_string "  SELECT 1 ") empty_world)))
     = [(of_string "SELECT 1", None, Some 25)].
Proof.
  refine (conj eq_refl _).
  exact (proj1 (read_query_forwards_trimmed (sample_db 1) quiet_host
                  (of_string "  SELECT 1 ") 25 empty_world eq_refl eq_refl)).
Defined.

(** C4 as it is stated fails on a query with whitespace around it: the
    statement the data store receives is not the string the caller
    supplied. *)
Lemma read_query_does_not_forward_literal :
  select_guard (of_string "  SELECT 1") = true
  /\ forwarded (trace (snd (read_query (sample_db 1) quiet_host
                              (of_string "  SELECT 1") 25 empty_world)))
     = [(of_string "SELECT 1", None, Some 25)]
  /\ forwarded (trace (snd (read_query (sample_db 1) quiet_host
                              (of_string "  SELECT 1") 25 empty_world)))
     <> [(of_string "  SELECT 1", None, Some 25)].
Proof.
  split; [reflexivity|]. split; [reflexivity|]. discriminate.
Qed.

(** ** The guard looks at six characters *)

Lemma upper_cp_length (c : codepoint) : (1 <= List.length (upper_cp c))%nat.
Proof.
  unfold upper_cp.
  repeat match goal with
         | |- context [if ?b then _ else _] => destruct b
         end; simpl; lia.
Qed.

Lemma startswith_app (p u t : str) :
  startswith p (u ++ t)
  = startswith (firstn (List.length u) p) u
    && startswith (skipn (List.length u) p) t.
Proof.
  revert p. induction u as [|a u IH]; intros p.
  - reflexivity.
  - destruct p as [|b p]; [reflexivity|].
    cbn [app List.length firstn skipn startswith].
    rewrite IH. apply andb_assoc.
Qed.

Lemma startswith_upper_firstn (s p : str) (n : nat) :
  (List.length p <= n)%nat ->
  startswith p (upper s) = startswith p (upper (firstn n s)).
Proof.
  revert p n. induction s as [|c s IH]; intros p n Hp.
  - now rewrite firstn_nil.
  - destruct n as [|n].
    + destruct p; [reflexivity | simpl in Hp; lia].
    + unfold upper in *. cbn [firstn flat_map].
      rewrite !startswith_app. f_equal.
      apply IH. rewrite length_skipn.
      pose proof (upper_cp_length c). lia.
Qed.

Lemma select_guard_first_six (query : str) :
  select_guard query
  = startswith (of_string "SELECT") (upper (firstn 6 (strip query))).
Proof.
  unfold select_guard. apply startswith_upper_firstn. cbv. lia.
Qed.

(** C10.  The guard depends on the first six characters of the trimmed
    query only, and asks for no token boundary after them: when these six
    characters upper-case to SELECT the query is let through, so is every
    query that shares them, and, the first notification delivered, the
    trimmed query is forwarded to the data store. *)
Theorem select_prefix_is_forwarded
  (db : Database) (ctx : ToolHost) (query : str) (max_rows : Z) (w : World) :
  upper (firstn 6 (strip query)) = of_string "SELECT" ->
  ctx (ctx_info (of_string "Executing query (max " ++ str_of_int max_rows
                 ++ of_string " rows)...")) = None ->
  select_guard query = true
  /\ (forall other,
        firstn 6 (strip other) = firstn 6 (strip query) ->
        select_guard other = true)
  /\ forwarded (trace (snd (read_query db ctx query max_rows w)))
     = forwarded (trace w) ++ [(strip query, None, Some max_rows)].
Proof.
  intros Hsix Hinfo.
  assert (Hguard : select_guard query = true).
  { rewrite select_guard_first_six, Hsix. reflexivity. }
  repeat split.
  - exact Hguard.
  - intros other Hsame.
    rewrite select_guard_first_six, Hsame, Hsix. reflexivity.
  - exact (read_query_forwards db ctx query max_rows w Hguard Hinfo).
Qed.

Lemma select_prefix_is_forwarded_witness :
  (upper (firstn 6 (strip (of_string "SELECTION of x"))) = of_string "SELECT"
   /\ forwarded (trace (snd (read_query (sample_db 1) quiet_host
                               (of_string "SELECTION of x") 25 empty_world)))
      = [(of_string "SELECTION of x", None, Some 25)])
  /\ (upper (firstn 6 (strip (of_string "selectx 1"))) = of_string "SELECT"
      /\ forwarded (trace (snd (read_query (sample_db 1) quiet_host
                                  (of_string "selectx 1") 25 empty_world)))
         = [(of_string "selectx 1", None, Some 25)]).
Proof.
  split; refine (conj eq_refl _).
  - exact (proj2 (proj2 (select_prefix_is_forwarded (sample_db 1) quiet_host
                           (of_string "SELECTION of x") 25 empty_world
                           eq_refl eq_refl))).
  - exact (proj2 (proj2 (select_prefix_is_forwarded (sample_db 1) quiet_host
                           (of_string "selectx 1") 25 empty_world
                           eq_refl eq_refl))).
Defined.

(** ** Loading the schema document *)

(** C7.  When the schema file cannot be opened or read, or its text
    cannot be parsed, the load raises nothing: the schema is the empty
    mapping, the failure is logged, and the schema resource serves the
    serialization of the empty mapping.  When the file is read and
    parsed, the schema is the parsed document, nothing is logged, and the
    schema resource serves the serialization of that document: the
    resource serves the structure the load left, empty or not. *)
Theorem load_schema_serves_what_was_loaded
  (open_schema : outcome str) (json_load : str -> outcome json) :
  (forall e,
     is_exception e = true ->
     open_schema = Raise e
     \/ (exists text, open_schema = Ok text /\ json_load text = Raise e) ->
     exists s,
       load_schema open_schema json_load = Ok s
       /\ schema s = JDict []
       /\ logged_errors s = [of_string "Error loading schema: " ++ exn_str e]
       /\ get_schema s = of_string "{}")
  /\ (forall text document,
        open_schema = Ok text ->
        json_load text = Ok document ->
        exists s,
          load_schema open_schema json_load = Ok s
          /\ schema s = document
          /\ logged_errors s = []
          /\ get_schema s = Json.dumps_indent2 document).
Proof.
  split.
  - intros e He Hfail.
    assert (E : read_and_parse open_schema json_load = Raise e).
    { unfold read_and_parse. destruct Hfail as [Ho | [text [Ho Hp]]];
        rewrite Ho; [reflexivity | exact Hp]. }
    unfold load_schema. rewrite E, He. eexists. repeat split.
  - intros text document Ho Hp.
    unfold load_schema, read_and_parse. rewrite Ho, Hp.
    eexists. repeat split.
Qed.

Lemma load_schema_serves_what_was_loaded_witness :
  (exists s,
     load_schema (Raise missing_file) sample_parser = Ok s
     /\ schema s = JDict []
     /\ logged_errors s
        = [of_string "Error loading schema: [Errno 2] No such file or directory"]
     /\ get_schema s = of_string "{}")
  /\ (exists s,
        load_schema (Ok (of_string "not json")) sample_parser = Ok s
        /\ schema s = JDict []
        /\ logged_errors s
           = [of_string "Error loading schema: " ++ exn_str malformed]
        /\ get_schema s = of_string "{}")
  /\ (exists s,
        load_schema (Ok (Json.dumps_indent2 (Script.schema_info sample_rows)))
          sample_parser = Ok s
        /\ schema s = Script.schema_info sample_rows
        /\ logged_errors s = []
        /\ get_schema s = Json.dumps_indent2 (Script.schema_info sample_rows)).
Proof.
  refine (conj _ (conj _ _)).
  - exact (proj1 (load_schema_serves_what_was_loaded (Raise missing_file)
                    sample_parser)
             missing_file eq_refl (or_introl eq_refl)).
  - exact (proj1 (load_schema_serves_what_was_loaded
                    (Ok (of_string "not json")) sample_parser)
             malformed eq_refl
             (or_intror (ex_intro _ (of_string "not json")
                           (conj eq_refl eq_refl)))).
  - exact (proj2 (load_schema_serves_what_was_loaded
                    (Ok (Json.dumps_indent2 (Script.schema_info sample_rows)))
                    sample_parser)
             (Json.dumps_indent2 (Script.schema_info sample_rows))
             (Script.schema_info sample_rows) eq_refl eq_refl).
Defined.

(** * Further properties of the tool surface *)

(** Case analysis on every call a handler makes: the answers of the host
    and of the database, the row accesses and the tests. *)
Ltac destruct_calls :=
  repeat match goal with
         | |- context [match ?x with _ => _ end] =>
             lazymatch type of x with
             | option exn => destruct x
             | outcome _ => destruct x
             | bool => destruct x eqn:?
             end
         end.

Ltac unfold_handler :=
  unfold try_reraise, bind, await, execute_query, lift, ret, raise.

(** ** What the tools leave alone *)

(** X1.  The three query tools never change the insight memo, whatever
    their arguments, the database's answer and the host's behaviour. *)
Theorem query_tools_keep_memo (db : Database) (ctx : ToolHost) (w : World) :
  insights (snd (list_tables db ctx w)) = insights w
  /\ (forall name, insights (snd (describe_table db ctx name w)) = insights w)
  /\ (forall query max_rows,
        insights (snd (read_query db ctx query max_rows w)) = insights w).
Proof.
  repeat split.
  - unfold list_tables. unfold_handler. destruct_calls; reflexivity.
  - intros [|c name]; [reflexivity|].
    unfold describe_table. cbn [is_empty]. unfold_handler.
    destruct_calls; reflexivity.
  - intros [|c query] max_rows; [reflexivity|].
    unfold read_query. cbn [is_empty]. unfold_handler.
    destruct_calls; reflexivity.
Qed.

(** X2.  [append_insight] never calls the data store: whatever the
    finding and the host's behaviour, the statements forwarded so far are
    the same before and after. *)
Theorem append_insight_never_queries (ctx : ToolHost) (finding : str) (w : World) :
  forwarded (trace (snd (append_insight ctx finding w))) = forwarded (trace w).
Proof.
  destruct finding as [|c finding]; [reflexivity|].
  unfold append_insight. cbn [is_empty]. unfold_handler.
  unfold MemoManager.add_insights.
  destruct_calls; cbn [snd trace record insights];
    rewrite ?forwarded_app; cbn [forwarded]; rewrite ?app_nil_r; reflexivity.
Qed.

(** X3.  Whatever the caller passes and whatever the database and the
    host do, one call of [read_query] forwards at most one statement, and
    a statement it forwards is the trimmed query, which begins with
    SELECT once upper-cased, with the caller's row cap and no bound
    parameters. *)
Theorem read_query_forwards_select_only
  (db : Database) (ctx : ToolHost) (query : str) (max_rows : Z) (w : World) :
  forwarded (trace (snd (read_query db ctx query max_rows w)))
  = forwarded (trace w)
  \/ (forwarded (trace (snd (read_query db ctx query max_rows w)))
      = forwarded (trace w) ++ [(strip query, None, Some max_rows)]
      /\ startswith (of_string "SELECT") (upper (strip query)) = true).
Proof.
  destruct query as [|c query]; [left; reflexivity|].
  destruct (select_guard (c :: query)) eqn:G.
  - destruct (ctx (ctx_info (of_string "Executing query (max "
                             ++ str_of_int max_rows
                             ++ of_string " rows)..."))) eqn:Hinfo.
    + left. unfold read_query, select_guard in *. cbn [is_empty].
      rewrite G. cbn [negb]. unfold_handler. rewrite Hinfo.
      destruct_calls; cbn [snd trace record insights];
        rewrite ?forwarded_app; cbn [forwarded]; rewrite ?app_nil_r;
        reflexivity.
    + right. split; [|exact G].
      exact (read_query_forwards db ctx (c :: query) max_rows w G Hinfo).
  - left. rewrite (read_query_unfold db ctx c query max_rows G). reflexivity.
Qed.

(** ** Failures of the collaborators *)

(** X4.  When the data store fails on an accepted query, [read_query]
    sends "Query execution failed: " followed by the error's text to the
    host and raises the store's error itself; when that notification
    fails too, its exception is the one the caller gets.  Nothing else is
    sent: the calls made are the first notification, the statement and
    the error notification, in this order.  What is not an [Exception]
    is raised as it is, without the error notification. *)
Theorem read_query_store_failure
  (db : Database) (ctx : ToolHost) (query : str) (max_rows : Z) (e : exn)
  (w : World) :
  select_guard query = true ->
  ctx (ctx_info (of_string "Executing query (max " ++ str_of_int max_rows
                 ++ of_string " rows)...")) = None ->
  db (strip query) None = Raise e ->
  read_query db ctx query max_rows w
  = (Raise (if is_exception e
            then match ctx (ctx_error (of_string "Query execution failed: "
                                       ++ exn_str e)) with
                 | None => e
                 | Some e' => e'
                 end
            else e),
     {| insights := insights w;
        trace := trace w
                 ++ [ Host (ctx_info (of_string "Executing query (max "
                                      ++ str_of_int max_rows
                                      ++ of_string " rows)..."));
                      Execute (strip query) None (Some max_rows) ]
                 ++ (if is_exception e
                     then [ Host (ctx_error (of_string "Query execution failed: "
                                             ++ exn_str e)) ]
                     else []) |}).
Proof.
  intros Hguard Hinfo Hdb.
  destruct query as [|c query]; [discriminate|].
  unfold read_query, select_guard in *. cbn [is_empty]. rewrite Hguard.
  cbn [negb]. unfold_handler. rewrite Hinfo, Hdb.
  destruct (is_exception e); [destruct (ctx (ctx_error _))|];
    unfold record; cbn [insights trace];
    rewrite <- ?app_assoc; cbn [app]; rewrite ?app_nil_r; reflexivity.
Qed.

Lemma read_query_store_failure_witness :
  select_guard (of_string "SELECT pg_sleep(60)") = true
  /\ fst (read_query (fun _ _ => Raise timeout_error) quiet_host
            (of_string "SELECT pg_sleep(60)") 25 empty_world)
     = Raise timeout_error
  /\ fst (read_query (fun _ _ => Raise timeout_error)
            (fun c => match c with
                      | ctx_error _ => Some closed_stream
                      | _ => None
                      end)
            (of_string "SELECT pg_sleep(60)") 25 empty_world)
     = Raise closed_stream.
Proof.
  refine (conj eq_refl (conj _ _)).
  - exact (f_equal fst
             (read_query_store_failure (fun _ _ => Raise timeout_error)
                quiet_host (of_string "SELECT pg_sleep(60)") 25 timeout_error
                empty_world eq_refl eq_refl eq_refl)).
  - exact (f_equal fst
             (read_query_store_failure (fun _ _ => Raise timeout_error)
                (fun c => match c with
                          | ctx_error _ => Some closed_stream
                          | _ => None
                          end)
                (of_string "SELECT pg_sleep(60)") 25 timeout_error
                empty_world eq_refl eq_refl eq_refl)).
Defined.

(** X5.  On a host that delivers its notifications, an accepted query
    the database answers makes [read_query] send the progress
    notification exactly when more than ten rows are returned, after the
    two log notifications and the statement. *)
Theorem read_query_progress_threshold
  (db : Database) (ctx : ToolHost) (query : str) (max_rows : Z)
  (all_rows : list Row) (w : World) :
  select_guard query = true ->
  db (strip query) None = Ok all_rows ->
  delivers_all ctx ->
  trace (snd (read_query db ctx query max_rows w))
  = trace w
    ++ [ Host (ctx_info (of_string "Executing query (max "
                         ++ str_of_int max_rows ++ of_string " rows)..."));
         Execute (strip query) None (Some max_rows);
         Host (ctx_debug (of_string "Query returned "
                          ++ str_of_int (len (firstn (Z.to_nat max_rows) all_rows))
                          ++ of_string " rows")) ]
    ++ (if len (firstn (Z.to_nat max_rows) all_rows) >? 10
        then [ Host (ctx_report_progress
                       (of_string "Retrieved "
                        ++ str_of_int (len (firstn (Z.to_nat max_rows) all_rows))
                        ++ of_string " rows")) ]
        else []).
Proof.
  intros Hguard Hdb Hall.
  destruct query as [|c query]; [discriminate|].
  unfold read_query, select_guard in *. cbn [is_empty]. rewrite Hguard.
  cbn [negb]. unfold_handler. rewrite Hall, Hdb. rewrite Hall.
  destruct (len (firstn (Z.to_nat max_rows) all_rows) >? 10);
    [rewrite Hall|]; unfold record; cbn [snd insights trace];
    rewrite <- !app_assoc; reflexivity.
Qed.

Lemma read_query_progress_threshold_witness :
  (exists m,
     trace (snd (read_query (sample_db 11) quiet_host (of_string "select 1") 25
                   empty_world))
     = [ Host (ctx_info (of_string "Executing query (max 25 rows)..."));
         Execute (of_string "select 1") None (Some 25);
         Host (ctx_debug (of_string "Query returned 11 rows"));
         Host (ctx_report_progress m) ])
  /\ trace (snd (read_query (sample_db 10) quiet_host (of_string "select 1") 25
                   empty_world))
     = [ Host (ctx_info (of_string "Executing query (max 25 rows)..."));
         Execute (of_string "select 1") None (Some 25);
         Host (ctx_debug (of_string "Query returned 10 rows")) ].
Proof.
  split.
  - eexists.
    exact (read_query_progress_threshold (sample_db 11) quiet_host
             (of_string "select 1") 25 (numbered_rows 11) empty_world
             eq_refl eq_refl (fun _ => eq_refl)).
  - exact (read_query_progress_threshold (sample_db 10) quiet_host
             (of_string "select 1") 25 (numbered_rows 10) empty_world
             eq_refl eq_refl (fun _ => eq_refl)).
Defined.

(** X6.  A tool that raises an [Exception] has either stopped at its
    argument checks, before any call on a collaborator, or made
    [ctx.error] its last call: no such failure past the checks goes
    unreported.  What a tool raises otherwise is not an [Exception]: a
    cancellation at one of its awaits, which the handler does not catch. *)
Theorem failures_are_reported
  (db : Database) (ctx : ToolHost) (w : World) :
  (match list_tables db ctx w with
   | (Ok _, _) => True
   | (Raise e, w') =>
       is_exception e = false
       \/ exists t m, trace w' = t ++ [Host (ctx_error m)]
   end)
  /\ (forall name,
        match describe_table db ctx name w with
        | (Ok _, _) => True
        | (Raise e, w') =>
            is_exception e = false
            \/ trace w' = trace w
            \/ exists t m, trace w' = t ++ [Host (ctx_error m)]
        end)
  /\ (forall query max_rows,
        match read_query db ctx query max_rows w with
        | (Ok _, _) => True
        | (Raise e, w') =>
            is_exception e = false
            \/ trace w' = trace w
            \/ exists t m, trace w' = t ++ [Host (ctx_error m)]
        end)
  /\ (forall finding,
        match append_insight ctx finding w with
        | (Ok _, _) => True
        | (Raise e, w') =>
            is_exception e = false
            \/ trace w' = trace w
            \/ exists t m, trace w' = t ++ [Host (ctx_error m)]
        end).
Proof.
  repeat split.
  - unfold list_tables. unfold_handler.
    destruct_calls; try exact I;
      first [left; assumption | right; eexists; eexists; reflexivity].
  - intros [|c name]; [right; left; reflexivity|].
    unfold describe_table. cbn [is_empty]. unfold_handler.
    destruct_calls; try exact I;
      first [left; assumption | right; right; eexists; eexists; reflexivity].
  - intros [|c query] max_rows; [right; left; reflexivity|].
    unfold read_query. cbn [is_empty]. unfold_handler.
    destruct_calls; try exact I;
      first [ left; assumption
            | right; left; reflexivity
            | right; right; eexists; eexists; reflexivity ].
  - intros [|c finding]; [right; left; reflexivity|].
    unfold append_insight. cbn [is_empty]. unfold_handler.
    unfold MemoManager.add_insights.
    destruct_calls; try exact I;
      first [left; assumption | right; right; eexists; eexists; reflexivity].
Qed.

(** ** Introspection *)

Lemma getitem_has_key (row : Row) (key : str) :
  has_key row key = true -> getitem row key = Ok (get row key).
Proof.
  unfold has_key, get. destruct (getitem row key); [reflexivity|discriminate].
Qed.

Lemma getitem_raise (row : Row) (key : str) :
  has_key row key = false -> getitem row key = Raise (KeyError key).
Proof.
  unfold has_key. induction row as [|[k v] row IH]; cbn [getitem].
  - reflexivity.
  - destruct (str_eqb k key); [discriminate | exact IH].
Qed.

Lemma comprehension_ok {A B} (f : A -> outcome B) (g : A -> B) (l : list A) :
  (forall a, In a l -> f a = Ok (g a)) ->
  comprehension f l = Ok (map g l).
Proof.
  induction l as [|a l IH]; intros H; cbn [comprehension map].
  - reflexivity.
  - rewrite (H a (or_introl eq_refl)).
    rewrite IH; [reflexivity|]. intros b Hb. apply H. right. exact Hb.
Qed.

Lemma comprehension_first_failure {A B} (f : A -> outcome B)
  (good : list A) (bad : A) (rest : list A) (e : exn) :
  (forall a, In a good -> exists b, f a = Ok b) ->
  f bad = Raise e ->
  comprehension f (good ++ bad :: rest) = Raise e.
Proof.
  intros Hgood Hbad. induction good as [|a good IH]; cbn [app comprehension].
  - now rewrite Hbad.
  - destruct (Hgood a (or_introl eq_refl)) as [b Hb]. rewrite Hb.
    rewrite IH; [reflexivity|]. intros a' Ha'. apply Hgood. right. exact Ha'.
Qed.

(** X7.  [describe_table] sends the table name as a bound parameter: for
    a name that is not empty, once the first notification is delivered,
    the statement forwarded is the fixed introspection text, whatever the
    name, with the name as the value of the parameter [table_name] and
    no row cap. *)
Theorem describe_table_binds_name
  (db : Database) (ctx : ToolHost) (name : str) (w : World) :
  name <> [] ->
  ctx (ctx_info (of_string "Examining structure of table: " ++ name)) = None ->
  forwarded (trace (snd (describe_table db ctx name w)))
  = forwarded (trace w)
    ++ [(describe_table_sql, Some [(of_string "table_name", name)], None)].
Proof.
  intros Hne Hinfo. destruct name as [|c name]; [contradiction|].
  unfold describe_table. cbn [is_empty]. unfold_handler. rewrite Hinfo.
  destruct_calls; cbn [snd trace record insights];
    rewrite ?forwarded_app; cbn [forwarded]; rewrite ?app_nil_r; reflexivity.
Qed.

Lemma describe_table_binds_name_witness :
  of_string "x'; DROP TABLE studies; --" <> []
  /\ forwarded (trace (snd (describe_table (sample_db 0) quiet_host
                              (of_string "x'; DROP TABLE studies; --")
                              empty_world)))
     = [(describe_table_sql,
         Some [(of_string "table_name", of_string "x'; DROP TABLE studies; --")],
         None)].
Proof.
  split; [discriminate|].
  refine (describe_table_binds_name (sample_db 0) quiet_host
            (of_string "x'; DROP TABLE studies; --") empty_world _ eq_refl).
  discriminate.
Defined.

(** X8.  On a host that delivers its notifications, when every row the
    database returns for the table has the columns [column_name] and
    [data_type], [describe_table] returns one [ColumnInfo] for each row,
    in the order of the rows, with [None] as the maximum length of a row
    that has none; for a table the database does not know, which gives no
    row, the result is the empty list and not an error. *)
Theorem describe_table_returns_columns
  (db : Database) (ctx : ToolHost) (name : str) (results : list Row)
  (w : World) :
  name <> [] ->
  delivers_all ctx ->
  db describe_table_sql (Some [(of_string "table_name", name)]) = Ok results ->
  forallb (fun row => has_key row (of_string "column_name")
                      && has_key row (of_string "data_type")) results = true ->
  fst (describe_table db ctx name w) = Ok (map column_info_of results)
  /\ (results = [] -> fst (describe_table db ctx name w) = Ok []).
Proof.
  intros Hne Hall Hdb Hkeys.
  assert (E : fst (describe_table db ctx name w) = Ok (map column_info_of results)).
  { destruct name as [|c name]; [contradiction|].
    unfold describe_table. cbn [is_empty]. unfold_handler.
    rewrite Hall, Hdb, Hall.
    rewrite (comprehension_ok _ column_info_of results); [reflexivity|].
    intros row Hin.
    pose proof (proj1 (forallb_forall _ results) Hkeys row Hin) as Hrow.
    apply andb_prop in Hrow. destruct Hrow as [Hcn Hdt].
    rewrite (getitem_has_key row _ Hcn), (getitem_has_key row _ Hdt).
    reflexivity. }
  split; [exact E|]. intros Hnil. rewrite E, Hnil. reflexivity.
Qed.

Lemma describe_table_returns_columns_witness :
  fst (describe_table catalog_db quiet_host (of_string "studies") empty_world)
  = Ok [ {| column_name := VStr (of_string "nct_id");
            data_type := VStr (of_string "character varying");
            character_maximum_length := VInt 11 |};
         {| column_name := VStr (of_string "start_date");
            data_type := VStr (of_string "date");
            character_maximum_length := VNone |} ]
  /\ fst (describe_table catalog_db quiet_host (of_string "nonexistent_table")
            empty_world)
     = Ok [].
Proof.
  split.
  - refine (proj1 (describe_table_returns_columns catalog_db quiet_host
                     (of_string "studies") studies_columns empty_world
                     _ (fun _ => eq_refl) eq_refl eq_refl)).
    discriminate.
  - refine (proj2 (describe_table_returns_columns catalog_db quiet_host
                     (of_string "nonexistent_table") [] empty_world
                     _ (fun _ => eq_refl) eq_refl eq_refl) eq_refl).
    discriminate.
Defined.

(** X9.  On a host that delivers its notifications, when a row the
    database returns lacks [column_name] or [data_type], [describe_table]
    returns no column at all.  The rows are taken in order and, in a row,
    [column_name] before [data_type]: the tool raises the [KeyError] of
    the first key missing in the first such row, whatever the rows after
    it hold, after reporting "Failed to describe table", the name and the
    quoted key to the host as its last call. *)
Theorem describe_table_missing_column
  (db : Database) (ctx : ToolHost) (name : str) (good : list Row) (bad : Row)
  (rest : list Row) (w : World) :
  name <> [] ->
  delivers_all ctx ->
  db describe_table_sql (Some [(of_string "table_name", name)])
  = Ok (good ++ bad :: rest) ->
  forallb (fun row => has_key row (of_string "column_name")
                      && has_key row (of_string "data_type")) good = true ->
  has_key bad (of_string "column_name") && has_key bad (of_string "data_type")
  = false ->
  describe_table db ctx name w
  = (Raise (KeyError (first_missing_key bad)),
     {| insights := insights w;
        trace := trace w
                 ++ [ Host (ctx_info (of_string "Examining structure of table: "
                                      ++ name));
                      Execute describe_table_sql
                        (Some [(of_string "table_name", name)]) None;
                      Host (ctx_debug (of_string "Retrieved "
                                       ++ str_of_int (len (good ++ bad :: rest))
                                       ++ of_string " columns for table "
                                       ++ name));
                      Host (ctx_error
                              (of_string "Failed to describe table "
                               ++ name ++ of_string ": "
                               ++ exn_str (KeyError (first_missing_key bad)))) ] |}).
Proof.
  intros Hne Hall Hdb Hgood Hbad.
  destruct name as [|c name]; [contradiction|].
  set (f := fun row : Row =>
              match getitem row (of_string "column_name") with
              | Raise e => Raise e
              | Ok cn =>
                  match getitem row (of_string "data_type") with
                  | Raise e => Raise e
                  | Ok dt =>
                      Ok {| column_name := cn;
                            data_type := dt;
                            character_maximum_length :=
                              get row (of_string "character_maximum_length") |}
                  end
              end).
  assert (Hf : comprehension f (good ++ bad :: rest)
               = Raise (KeyError (first_missing_key bad))).
  { apply comprehension_first_failure.
    - intros row Hin.
      pose proof (proj1 (forallb_forall _ good) Hgood row Hin) as Hrow.
      apply andb_prop in Hrow. destruct Hrow as [Hcn Hdt]. unfold f.
      rewrite (getitem_has_key row _ Hcn), (getitem_has_key row _ Hdt).
      eexists. reflexivity.
    - unfold f, first_missing_key.
      destruct (has_key bad (of_string "column_name")) eqn:Hcn.
      + cbn [andb] in Hbad.
        rewrite (getitem_has_key bad _ Hcn), (getitem_raise bad _ Hbad).
        reflexivity.
      + rewrite (getitem_raise bad _ Hcn). reflexivity. }
  unfold describe_table. cbn [is_empty]. unfold_handler.
  rewrite Hall, Hdb, Hall. fold f. rewrite Hf. cbn [is_exception].
  rewrite Hall. unfold record. cbn [insights trace].
  rewrite <- !app_assoc. reflexivity.
Qed.

Lemma describe_table_missing_column_witness :
  first_missing_key no_type_row = of_string "data_type"
  /\ fst (describe_table mixed_db quiet_host (of_string "studies") empty_world)
     = Raise (KeyError (of_string "data_type")).
Proof.
  split; [reflexivity|].
  refine (f_equal fst
            (describe_table_missing_column mixed_db quiet_host
               (of_string "studies") [full_row] no_type_row [no_name_row]
               empty_world _ (fun _ => eq_refl) eq_refl eq_refl eq_refl)).
  discriminate.
Defined.

(** X10.  On a host that delivers its notifications, [list_tables] sends
    its fixed statement without parameters and without a row cap, and
    returns one [TableInfo] for each row of the answer, in the order the
    database gave them. *)
Theorem list_tables_returns_rows
  (db : Database) (ctx : ToolHost) (results : list Row) (w : World) :
  delivers_all ctx ->
  db list_tables_sql None = Ok results ->
  forallb (fun row => has_key row (of_string "table_name")) results = true ->
  fst (list_tables db ctx w) = Ok (map table_info_of results)
  /\ forwarded (trace (snd (list_tables db ctx w)))
     = forwarded (trace w) ++ [(list_tables_sql, None, None)].
Proof.
  intros Hall Hdb Hkeys.
  unfold list_tables. unfold_handler. rewrite Hall, Hdb, Hall.
  rewrite (comprehension_ok _ table_info_of results).
  - split; [reflexivity|].
    cbn [snd trace record insights].
    rewrite !forwarded_app. cbn [forwarded]. rewrite !app_nil_r. reflexivity.
  - intros row Hin.
    pose proof (proj1 (forallb_forall _ results) Hkeys row Hin) as Hrow.
    rewrite (getitem_has_key row _ Hrow). reflexivity.
Qed.

Lemma list_tables_returns_rows_witness :
  fst (list_tables catalog_db quiet_host empty_world)
  = Ok [ {| table_name := VStr (of_string "sponsors") |};
         {| table_name := VStr (of_string "studies") |} ]
  /\ forwarded (trace (snd (list_tables catalog_db quiet_host empty_world)))
     = [(list_tables_sql, None, None)].
Proof.
  exact (list_tables_returns_rows catalog_db quiet_host table_rows empty_world
           (fun _ => eq_refl) eq_refl eq_refl).
Defined.

(** ** Whitespace around a query *)

Lemma lstrip_fixed (c : codepoint) (s : str) :
  isspace c = false -> lstrip (c :: s) = c :: s.
Proof. intros H. cbn [lstrip]. now rewrite H. Qed.

Lemma lstrip_head (s : str) :
  lstrip s = [] \/ exists c t, lstrip s = c :: t /\ isspace c = false.
Proof.
  induction s as [|c s IH]; cbn [lstrip]; [left; reflexivity|].
  destruct (isspace c) eqn:Hc; [exact IH|].
  right. exists c, s. split; [reflexivity | exact Hc].
Qed.

Lemma lstrip_snoc (u : str) (c : codepoint) :
  isspace c = false -> lstrip (u ++ [c]) = lstrip u ++ [c].
Proof.
  intros Hc. induction u as [|a u IH]; cbn [app lstrip].
  - now rewrite Hc.
  - destruct (isspace a); [exact IH | reflexivity].
Qed.

Lemma lstrip_idempotent (s : str) : lstrip (lstrip s) = lstrip s.
Proof.
  destruct (lstrip_head s) as [-> | [c [t [-> Hc]]]];
    [reflexivity | exact (lstrip_fixed c t Hc)].
Qed.

Lemma strip_idempotent (s : str) : strip (strip s) = strip s.
Proof.
  unfold strip.
  assert (H : lstrip (rstrip (lstrip s)) = rstrip (lstrip s)).
  { destruct (lstrip_head s) as [-> | [c [t [-> Hc]]]]; [reflexivity|].
    unfold rstrip. cbn [rev]. rewrite (lstrip_snoc _ c Hc).
    rewrite rev_app_distr. cbn [rev app]. exact (lstrip_fixed c _ Hc). }
  rewrite H. unfold rstrip. rewrite rev_involutive, lstrip_idempotent.
  reflexivity.
Qed.

(** X11.  Whitespace around a query is of no consequence: when the
    trimmed query is not empty, [read_query] on the trimmed query gives
    the same outcome, the same notifications and the same statement as on
    the caller's string. *)
Theorem read_query_ignores_outer_whitespace
  (db : Database) (ctx : ToolHost) (query : str) (max_rows : Z) (w : World) :
  strip query <> [] ->
  read_query db ctx (strip query) max_rows w
  = read_query db ctx query max_rows w.
Proof.
  intros Hne.
  destruct query as [|c query]; [reflexivity|].
  pose proof (strip_idempotent (c :: query)) as Hidem.
  unfold read_query.
  destruct (strip (c :: query)) as [|c' s'] eqn:E; [contradiction|].
  cbn [is_empty]. rewrite Hidem. reflexivity.
Qed.

Lemma read_query_ignores_outer_whitespace_witness :
  strip [0x09; 0x20; 0x73; 0x65; 0x6C; 0x65; 0x63; 0x74; 0x20; 0x31; 0x0A; 0xA0]%N
  = of_string "select 1"
  /\ read_query (sample_db 2) quiet_host (of_string "select 1") 25 empty_world
     = read_query (sample_db 2) quiet_host
         [0x09; 0x20; 0x73; 0x65; 0x6C; 0x65; 0x63; 0x74; 0x20; 0x31; 0x0A; 0xA0]%N
         25 empty_world.
Proof.
  split; [reflexivity|].
  refine (read_query_ignores_outer_whitespace (sample_db 2) quiet_host
            [0x09; 0x20; 0x73; 0x65; 0x6C; 0x65; 0x63; 0x74; 0x20; 0x31; 0x0A; 0xA0]%N
            25 empty_world _).
  discriminate.
Defined.

(** ** The answer of [append_insight] *)



(** * The schema generator *)

Ltac unfold_script :=
  unfold Script.main, Script.write_text, Script.get_schema_info,
    Script.get_db_connection, Script.sbind, Script.call, Script.with_exit,
    Script.sret, Script.sraise.

Example generator_run :
  snd (Script.main good_outside (script_file repo) [])
  = [ Script.MkDir (Script.resource_dir (script_file repo));
      Script.Connect alice_args;
      Script.OpenCursor;
      Script.ExecuteSql Script.schema_sql;
      Script.CloseCursor;
      Script.CloseConnection;
      Script.OpenWrite (Script.schema_file (script_file repo));
      Script.WriteFile (Script.schema_file (script_file repo))
        (of_quoted "{
  'schema_version': '1.0',
  'database': 'aact',
  'tables': {
    'sponsors': [
      'id',
      'name'
    ],
    'studies': [
      'nct_id'
    ]
  }
}");
      Script.CloseFile (Script.schema_file (script_file repo));
      Script.Print (of_string "Schema generated and saved to /repo/src/resources/database_schema.json") ].
Proof. reflexivity. Qed.

(** X13.  Once the generator has a connection, it closes it, whatever
    happens next: the cursor is opened, the query run and the cursor
    closed, or the cursor cannot be opened, and in all cases closing the
    connection is the last call; a failure of the cursor or of the query
    is raised after that. *)
Theorem generator_closes_connection
  (out : Script.Outside) (db_user db_password : str) (t : list Script.Event) :
  Script.environ_get (Script.environ out) (of_string "DB_USER") = Some db_user ->
  Script.environ_get (Script.environ out) (of_string "DB_PASSWORD")
  = Some db_password ->
  Script.pg_connect out
    {| Script.host := of_string "aact-db.ctti-clinicaltrials.org";
       Script.database := of_string "aact";
       Script.user := db_user;
       Script.password := db_password |} = None ->
  exists calls,
    snd (Script.get_schema_info out t)
    = t ++ [ Script.Connect
               {| Script.host := of_string "aact-db.ctti-clinicaltrials.org";
                  Script.database := of_string "aact";
                  Script.user := db_user;
                  Script.password := db_password |} ]
        ++ calls ++ [Script.CloseConnection]
    /\ (calls = [Script.OpenCursor]
        \/ calls = [ Script.OpenCursor; Script.ExecuteSql Script.schema_sql;
                     Script.CloseCursor ])
    /\ fst (Script.get_schema_info out t)
       = match Script.pg_cursor out with
         | Some e => Raise e
         | None =>
             match Script.pg_execute out Script.schema_sql with
             | Raise e => Raise e
             | Ok rows => Ok (Script.schema_info rows)
             end
         end.
Proof.
  intros Huser Hpassword Hconnect.
  unfold_script. rewrite Huser, Hpassword, Hconnect.
  destruct (Script.pg_cursor out).
  - exists [Script.OpenCursor]. cbn [fst snd].
    rewrite <- !app_assoc. repeat split. left. reflexivity.
  - exists [Script.OpenCursor; Script.ExecuteSql Script.schema_sql;
            Script.CloseCursor].
    destruct (Script.pg_execute out Script.schema_sql); cbn [fst snd];
      rewrite <- !app_assoc; repeat split; right; reflexivity.
Qed.

Lemma generator_closes_connection_witness :
  exists calls,
    snd (Script.get_schema_info failing_query_outside [])
    = [] ++ [Script.Connect alice_args] ++ calls ++ [Script.CloseConnection]
    /\ (calls = [Script.OpenCursor]
        \/ calls = [ Script.OpenCursor; Script.ExecuteSql Script.schema_sql;
                     Script.CloseCursor ])
    /\ fst (Script.get_schema_info failing_query_outside []) = Raise timeout_error.
Proof.
  exact (generator_closes_connection failing_query_outside (of_string "alice")
           (of_string "secret") [] eq_refl eq_refl eq_refl).
Defined.

(** X14.  Without both credentials in the environment the generator
    reaches neither the database nor the schema file: the only call it
    makes is the creation of the resource directory, which comes first,
    and it raises the directory's error or else a [ValueError] that names
    the first missing variable, [DB_USER] before [DB_PASSWORD]. *)
Theorem generator_needs_credentials (out : Script.Outside) (file : Path) :
  Script.environ_get (Script.environ out) (of_string "DB_USER") = None
  \/ Script.environ_get (Script.environ out) (of_string "DB_PASSWORD") = None ->
  Script.main out file []
  = (Raise match Script.fs_mkdir out (Script.resource_dir file) with
           | Some e => e
           | None =>
               match Script.environ_get (Script.environ out) (of_string "DB_USER") with
               | None =>
                   ValueError
                     (of_string "Missing required environment variable: DB_USER")
               | Some _ =>
                   ValueError
                     (of_string "Missing required environment variable: DB_PASSWORD")
               end
           end,
     [Script.MkDir (Script.resource_dir file)]).
Proof.
  intros Hmissing. unfold_script.
  destruct (Script.fs_mkdir out (Script.resource_dir file)); [reflexivity|].
  destruct (Script.environ_get (Script.environ out) (of_string "DB_USER"));
    [|reflexivity].
  destruct Hmissing as [H | H]; [discriminate H|]. rewrite H. reflexivity.
Qed.

Lemma generator_needs_credentials_witness :
  Script.main no_password_outside (script_file repo) []
  = (Raise (ValueError
              (of_string "Missing required environment variable: DB_PASSWORD")),
     [Script.MkDir (Script.resource_dir (script_file repo))]).
Proof.
  exact (generator_needs_credentials no_password_outside (script_file repo)
           (or_intror eq_refl)).
Defined.

(** X15.  The generator opens the schema file, which empties it, only
    after the query has succeeded, and the file it opens is
    [schema_file].  What it then writes there is the serialization of the
    complete document built from the rows, or, when the write fails, the
    part of it written before the failure; a run that ends normally has
    written the whole of it. *)
Theorem generator_writes_after_query
  (out : Script.Outside) (file p : Path) :
  In (Script.OpenWrite p) (snd (Script.main out file [])) ->
  exists rows,
    Script.pg_execute out Script.schema_sql = Ok rows
    /\ p = Script.schema_file file
    /\ (forall q text,
          In (Script.WriteFile q text) (snd (Script.main out file [])) ->
          q = p
          /\ exists n,
               text = firstn n (Json.dumps_indent2 (Script.schema_info rows)))
    /\ (fst (Script.main out file []) = Ok tt ->
        In (Script.WriteFile p (Json.dumps_indent2 (Script.schema_info rows)))
          (snd (Script.main out file []))).
Proof.
  unfold_script.
  destruct (Script.pg_execute out Script.schema_sql) as [rows|e] eqn:Hq;
    repeat match goal with
           | |- context [match ?x with _ => _ end] =>
               lazymatch type of x with
               | option _ => destruct x
               | Script.WriteFailure => destruct x
               end
           end;
    cbn [fst snd app In]; intros H;
    repeat match type of H with
           | _ \/ _ => destruct H as [H | H]
           | False => contradiction
           | _ = _ => first [discriminate H | injection H as <-]
           end.
  all: exists rows; split; [reflexivity|]; split; [reflexivity|]; split.
  all: try (intros Hok; first [discriminate Hok | tauto]).
  all: intros q text Hin;
    repeat match type of Hin with
           | _ \/ _ => destruct Hin as [Hin | Hin]
           | False => contradiction
           | _ = _ => first [discriminate Hin | injection Hin as <- <-]
           end;
    (split; [reflexivity|]).
  all: first
         [ exists (List.length (Json.dumps_indent2 (Script.schema_info rows)));
           now rewrite firstn_all
         | eexists; reflexivity ].
Qed.

Example generator_partial_write :
  Script.main full_disk_outside (script_file repo) []
  = (Raise disk_full,
     [ Script.MkDir (Script.resource_dir (script_file repo));
       Script.Connect alice_args;
       Script.OpenCursor;
       Script.ExecuteSql Script.schema_sql;
       Script.CloseCursor;
       Script.CloseConnection;
       Script.OpenWrite (Script.schema_file (script_file repo));
       Script.WriteFile (Script.schema_file (script_file repo))
         (of_quoted "{
  'schema_");
       Script.CloseFile (Script.schema_file (script_file repo)) ]).
Proof. reflexivity. Qed.

Lemma generator_writes_after_query_witness :
  exists rows,
    Script.pg_execute good_outside Script.schema_sql = Ok rows
    /\ Script.schema_file (script_file repo) = Script.schema_file (script_file repo)
    /\ (forall q text,
          In (Script.WriteFile q text)
            (snd (Script.main good_outside (script_file repo) [])) ->
          q = Script.schema_file (script_file repo)
          /\ exists n,
               text = firstn n (Json.dumps_indent2 (Script.schema_info rows)))
    /\ (fst (Script.main good_outside (script_file repo) []) = Ok tt ->
        In (Script.WriteFile (Script.schema_file (script_file repo))
              (Json.dumps_indent2 (Script.schema_info rows)))
          (snd (Script.main good_outside (script_file repo) []))).
Proof.
  refine (generator_writes_after_query good_outside (script_file repo)
            (Script.schema_file (script_file repo)) _).
  cbv. do 6 right. left. reflexivity.
Defined.

Lemma parent_child (p : Path) (name : str) : parent (child p name) = p.
Proof.
  destruct p as [a ps]. unfold parent, child. cbn [absolute parts].
  now rewrite removelast_last.
Qed.

Lemma generator_and_server_agree (root : Path) :
  Script.schema_file (script_file root) = schema_path (server_file root).
Proof.
  unfold Script.schema_file, Script.resource_dir, schema_path, script_file,
    server_file.
  now rewrite !parent_child.
Qed.

(** X16.  The generator feeds the server: when every call of the
    generator succeeds, the file it writes is the one the server opens,
    wherever the repository lies; and when [json.load] gives back the
    document from its serialization, the server starts with the
    generator's document as its schema, logs no error, and the schema
    resource serves the very text of the file. *)
Theorem generator_feeds_server
  (out : Script.Outside) (root : Path) (db_user db_password : str)
  (rows : list Script.SchemaRow) (json_load : str -> outcome json) :
  Script.environ_get (Script.environ out) (of_string "DB_USER") = Some db_user ->
  Script.environ_get (Script.environ out) (of_string "DB_PASSWORD")
  = Some db_password ->
  (forall args, Script.pg_connect out args = None) ->
  Script.pg_cursor out = None ->
  Script.pg_execute out Script.schema_sql = Ok rows ->
  (forall p, Script.fs_mkdir out p = None) ->
  (forall p text, Script.fs_write out p text = None) ->
  json_load (Json.dumps_indent2 (Script.schema_info rows))
  = Ok (Script.schema_info rows) ->
  fst (Script.main out (script_file root) []) = Ok tt
  /\ In (Script.WriteFile (schema_path (server_file root))
           (Json.dumps_indent2 (Script.schema_info rows)))
        (snd (Script.main out (script_file root) []))
  /\ load_schema (Ok (Json.dumps_indent2 (Script.schema_info rows))) json_load
     = Ok {| schema := Script.schema_info rows; logged_errors := [] |}
  /\ get_schema {| schema := Script.schema_info rows; logged_errors := [] |}
     = Json.dumps_indent2 (Script.schema_info rows).
Proof.
  intros Huser Hpassword Hconnect Hcursor Hquery Hmkdir Hwrite Hload.
  rewrite <- (generator_and_server_agree root).
  unfold_script.
  rewrite Hmkdir, Huser, Hpassword, Hconnect, Hcursor, Hquery, Hwrite.
  cbn [fst snd app]. repeat split.
  - cbn [In]. do 7 right. left. reflexivity.
  - unfold load_schema, read_and_parse. rewrite Hload. reflexivity.
Qed.

Lemma generator_feeds_server_witness :
  fst (Script.main good_outside (script_file repo) []) = Ok tt
  /\ In (Script.WriteFile (schema_path (server_file repo))
           (Json.dumps_indent2 (Script.schema_info sample_rows)))
        (snd (Script.main good_outside (script_file repo) []))
  /\ load_schema (Ok (Json.dumps_indent2 (Script.schema_info sample_rows)))
       sample_parser
     = Ok {| schema := Script.schema_info sample_rows; logged_errors := [] |}
  /\ get_schema {| schema := Script.schema_info sample_rows; logged_errors := [] |}
     = Json.dumps_indent2 (Script.schema_info sample_rows).
Proof.
  exact (generator_feeds_server good_outside repo (of_string "alice")
           (of_string "secret") sample_rows sample_parser
           eq_refl eq_refl (fun _ => eq_refl) eq_refl eq_refl
           (fun _ => eq_refl) (fun _ _ => eq_refl) eq_refl).
Defined.

(** ** The dictionary of tables *)

Lemma str_eqb_eq (a b : str) : str_eqb a b = true <-> a = b.
Proof.
  unfold str_eqb. destruct (list_eq_dec N.eq_dec a b); split;
    intros H; try reflexivity; try assumption; try discriminate; contradiction.
Qed.

Lemma str_eqb_refl (a : str) : str_eqb a a = true.
Proof. now apply str_eqb_eq. Qed.

Lemma str_eqb_neq (a b : str) : a <> b -> str_eqb a b = false.
Proof.
  intros H. destruct (str_eqb a b) eqn:E; [|reflexivity].
  apply str_eqb_eq in E. contradiction.
Qed.

Lemma dict_get_set {V} (key key' : str) (v : V) (d : list (str * V)) :
  Script.dict_get key' (Script.dict_set key v d)
  = if str_eqb key key' then Some v else Script.dict_get key' d.
Proof.
  induction d as [|[k v'] d IH]; cbn [Script.dict_set Script.dict_get].
  - reflexivity.
  - destruct (str_eqb k key) eqn:Hk; cbn [Script.dict_get].
    + apply str_eqb_eq in Hk. subst k.
      destruct (str_eqb key key'); reflexivity.
    + destruct (str_eqb k key') eqn:Hk'; [|exact IH].
      apply str_eqb_eq in Hk'. subst k.
      destruct (str_eqb key key') eqn:E; [|reflexivity].
      apply str_eqb_eq in E. subst key'.
      rewrite str_eqb_refl in Hk. discriminate Hk.
Qed.

Lemma dict_set_fresh {V} (key : str) (v : V) (d : list (str * V)) :
  ~ In key (map fst d) -> Script.dict_set key v d = d ++ [(key, v)].
Proof.
  induction d as [|[k v'] d IH]; cbn [Script.dict_set map fst In app]; intros H.
  - reflexivity.
  - rewrite str_eqb_neq by tauto. rewrite IH by tauto. reflexivity.
Qed.

Lemma tables_of_snoc (rows : list Script.SchemaRow) (row : Script.SchemaRow) :
  Script.tables_of (rows ++ [row])
  = Script.dict_set (Script.table_name row) (Script.columns row)
      (Script.tables_of rows).
Proof. unfold Script.tables_of. now rewrite fold_left_app. Qed.

(** X17.  In the dictionary of tables the generator builds, a table name
    is bound to the columns of the last row that carries it, and a name
    no row carries is not bound. *)
Theorem tables_of_last_row_wins (rows : list Script.SchemaRow) (name : str) :
  Script.dict_get name (Script.tables_of rows)
  = option_map Script.columns
      (find (fun row => str_eqb (Script.table_name row) name) (rev rows)).
Proof.
  induction rows as [|row rows IH] using rev_ind.
  - reflexivity.
  - rewrite tables_of_snoc, dict_get_set, rev_app_distr. cbn [rev app find].
    destruct (str_eqb (Script.table_name row) name); [reflexivity | exact IH].
Qed.

(** X18.  When the rows carry distinct table names, as the grouping of
    the query makes them, the dictionary of tables lists every row once,
    in the order of the rows, each table with its columns. *)
Theorem tables_of_distinct_names (rows : list Script.SchemaRow) :
  NoDup (map Script.table_name rows) ->
  Script.tables_of rows
  = map (fun row => (Script.table_name row, Script.columns row)) rows.
Proof.
  induction rows as [|row rows IH] using rev_ind; intros Hnodup.
  - reflexivity.
  - rewrite map_app in Hnodup. cbn [map] in Hnodup.
    apply NoDup_remove in Hnodup. rewrite app_nil_r in Hnodup.
    destruct Hnodup as [Hrest Hfresh].
    rewrite tables_of_snoc, (IH Hrest), map_app. cbn [map].
    apply dict_set_fresh. rewrite map_map. cbn [fst]. exact Hfresh.
Qed.

Lemma tables_of_distinct_names_witness :
  Script.tables_of sample_rows
  = [ (of_string "sponsors", [of_string "id"; of_string "name"]);
      (of_string "studies", [of_string "nct_id"]) ].
Proof.
  refine (tables_of_distinct_names sample_rows _).
  repeat constructor; cbn; intuition discriminate.
Defined.

(** * The text of the schema resource *)

Lemma plain_range (c : codepoint) : (0x20 <= c <= 0x7E)%N -> plain c = true.
Proof.
  intros [Hlo Hhi]. unfold plain.
  apply orb_true_iff. right. apply andb_true_iff.
  split; apply N.leb_le; assumption.
Qed.

Lemma plain_join (sep : str) (parts : list str) :
  forallb plain sep = true ->
  Forall (fun p => forallb plain p = true) parts ->
  forallb plain (join sep parts) = true.
Proof.
  intros Hsep Hparts. induction Hparts as [|p parts Hp _ IH].
  - reflexivity.
  - destruct parts as [|q parts]; [exact Hp|].
    change (join sep (p :: q :: parts)) with (p ++ sep ++ join sep (q :: parts)).
    rewrite !forallb_app, Hp, Hsep, IH. reflexivity.
Qed.

Lemma plain_hex_digit (d : N) : (d < 16)%N -> plain (Json.hex_digit d) = true.
Proof.
  intros Hd. apply plain_range. unfold Json.hex_digit.
  destruct (d <? 10)%N eqn:E;
    [apply N.ltb_lt in E | apply N.ltb_ge in E]; lia.
Qed.

Lemma plain_unicode_escape (n : N) : forallb plain (Json.unicode_escape n) = true.
Proof.
  unfold Json.unicode_escape, Json.hex4.
  rewrite forallb_app. cbn [forallb].
  rewrite !plain_hex_digit by (apply N.mod_lt; discriminate).
  reflexivity.
Qed.

Lemma plain_escape_cp (c : codepoint) : forallb plain (Json.escape_cp c) = true.
Proof.
  unfold Json.escape_cp.
  repeat match goal with
         | |- context [if ?b then _ else _] =>
             lazymatch b with
             | andb _ _ => destruct b eqn:Hrange
             | _ => destruct b
             end
         end; try reflexivity.
  - apply andb_prop in Hrange. destruct Hrange as [Hlo Hhi].
    apply N.leb_le in Hlo, Hhi. cbn [forallb].
    rewrite plain_range by lia. reflexivity.
  - apply plain_unicode_escape.
  - rewrite forallb_app, !plain_unicode_escape. reflexivity.
Qed.

Lemma plain_encode_str (s : str) : forallb plain (Json.encode_str s) = true.
Proof.
  unfold Json.encode_str. rewrite !forallb_app.
  replace (forallb plain (flat_map Json.escape_cp s)) with true.
  - reflexivity.
  - symmetry. induction s as [|c s IH]; cbn [flat_map]; [reflexivity|].
    now rewrite forallb_app, plain_escape_cp, IH.
Qed.

Lemma plain_uint (d : Decimal.uint) :
  forallb plain (of_string (NilEmpty.string_of_uint d)) = true.
Proof.
  unfold of_string.
  induction d; cbn [NilEmpty.string_of_uint list_ascii_of_string map forallb];
    try reflexivity; rewrite IHd; reflexivity.
Qed.

Lemma plain_str_of_int (n : Z) : forallb plain (str_of_int n) = true.
Proof.
  unfold str_of_int, NilZero.string_of_int, NilZero.string_of_uint.
  destruct (Z.to_int n) as [d|d]; destruct d; try reflexivity;
    try apply plain_uint;
    unfold of_string; cbn [list_ascii_of_string map forallb];
    try reflexivity;
    match goal with
    | |- context [NilEmpty.string_of_uint ?d] =>
        pose proof (plain_uint d) as H; unfold of_string in H;
        cbn [NilEmpty.string_of_uint list_ascii_of_string map forallb] in H |- *;
        rewrite ?H; try reflexivity
    end.
Qed.

Lemma plain_newline_indent (level : nat) :
  forallb plain (Json.newline_indent level) = true.
Proof.
  unfold Json.newline_indent, newline. rewrite forallb_app.
  replace (forallb plain (repeat 0x20%N (2 * level))) with true;
    [reflexivity|].
  symmetry. induction (2 * level)%nat as [|k IH]; cbn [repeat forallb];
    [reflexivity | rewrite IH; reflexivity].
Qed.

Lemma json_nested_ind (P : json -> Prop) :
  P JNull ->
  (forall b, P (JBool b)) ->
  (forall n, P (JInt n)) ->
  (forall s, P (JStr s)) ->
  (forall items, Forall P items -> P (JList items)) ->
  (forall members, Forall (fun kv => P (snd kv)) members -> P (JDict members)) ->
  forall j, P j.
Proof.
  intros HNull HBool HInt HStr HList HDict.
  fix IH 1. intros [ |b|n|s|items|members].
  - exact HNull.
  - apply HBool.
  - apply HInt.
  - apply HStr.
  - apply HList. induction items as [|j items IHitems]; constructor.
    + apply IH.
    + exact IHitems.
  - apply HDict. induction members as [|[k v] members IHmembers]; constructor.
    + apply IH.
    + exact IHmembers.
Qed.

Lemma plain_encode (j : json) :
  forall level, forallb plain (Json.encode level j) = true.
Proof.
  induction j as [ |b|n|s|items IH|members IH] using json_nested_ind;
    intros level.
  - reflexivity.
  - destruct b; reflexivity.
  - apply plain_str_of_int.
  - apply plain_encode_str.
  - destruct items as [|j items]; [reflexivity|].
    cbn [Json.encode]. rewrite !forallb_app, !plain_newline_indent.
    rewrite plain_join.
    + reflexivity.
    + rewrite forallb_app, plain_newline_indent. reflexivity.
    + apply Forall_map. revert IH. apply Forall_impl. intros a Ha. apply Ha.
  - destruct members as [|kv members]; [reflexivity|].
    cbn [Json.encode]. rewrite !forallb_app, !plain_newline_indent.
    rewrite plain_join.
    + reflexivity.
    + rewrite forallb_app, plain_newline_indent. reflexivity.
    + apply Forall_map. revert IH. apply Forall_impl. intros a Ha.
      rewrite !forallb_app, plain_encode_str, Ha. reflexivity.
Qed.

(** X19.  Whatever the schema document holds, the text the schema
    resource serves is made of printable ASCII characters and line feeds
    only: every other character of a name or a string is escaped. *)
Theorem get_schema_is_plain_ascii (s : Startup) :
  forallb plain (get_schema s) = true.
Proof. unfold get_schema, Json.dumps_indent2. apply plain_encode. Qed.

(** * More on query results and on an unavailable database *)

(** X20.  Every result [read_query] returns, on any host and for any
    [max_rows], has a [row_count] that is the number of its rows and is
    not negative, and is flagged [truncated] exactly when [row_count]
    reaches [max_rows]; so a result for a [max_rows] of zero or less is
    always flagged, and a result that is not flagged holds fewer than
    [max_rows] rows. *)
Theorem read_query_result_invariant
  (db : Database) (ctx : ToolHost) (query : str) (max_rows : Z) (w w' : World)
  (r : QueryResult) :
  read_query db ctx query max_rows w = (Ok r, w') ->
  row_count r = len (rows r)
  /\ 0 <= row_count r
  /\ truncated r = (row_count r >=? max_rows)
  /\ (max_rows <= 0 -> truncated r = true)
  /\ (truncated r = false -> row_count r < max_rows).
Proof.
  intros H.
  destruct (read_query_returned_shape db ctx query max_rows w w' r H)
    as [all_rows [_ [_ [_ [Hcount Htrunc]]]]].
  assert (Hpos : 0 <= row_count r) by (rewrite Hcount; unfold len; lia).
  repeat split; try assumption.
  - intros Hmax. rewrite Htrunc. apply Z.geb_le. lia.
  - intros Hfalse. rewrite Htrunc in Hfalse.
    destruct (Z.geb_spec (row_count r) max_rows); [discriminate | lia].
Qed.

Lemma read_query_result_invariant_witness :
  fst (read_query (sample_db 0) quiet_host (of_string "select 1") 0 empty_world)
  = Ok {| rows := []; row_count := 0; truncated := true |}
  /\ truncated {| rows := []; row_count := 0; truncated := true |} = true.
Proof.
  split; [reflexivity|].
  destruct (read_query_result_invariant (sample_db 0) quiet_host
              (of_string "select 1") 0 empty_world
              (snd (read_query (sample_db 0) quiet_host (of_string "select 1") 0
                      empty_world))
              {| rows := []; row_count := 0; truncated := true |} eq_refl)
    as [_ [_ [_ [Hflag _]]]].
  apply Hflag. discriminate.
Defined.


